(** * puffotter: byte units, directory listing, API decorators, API-key
      authentication and the background task runner

    A shallow embedding of the Python sources

    - [puffotter/units.py]   ([byte_string_to_byte_count], [human_readable_bytes])
    - [puffotter/os.py]      ([listdir])
    - [puffotter/flask/routes/decorators.py] ([api], [api_login_required])
    - [puffotter/flask/initialize.py] ([load_user_from_request], [load_user]
      and the loop over the blueprint generators of [__init_app])
    - [puffotter/flask/wsgi.py] ([run_task] of [__start_background_tasks])

    Python values are modelled as follows.

    - [str] is [string]; every character is read as the code point with the
      same number (0..255).  Code points above 255 are outside the model.
    - [bytes] is [string] as well, a character for a byte.
    - [int] is [Z]; [float] is IEEE binary64, as [spec_float] with the
      operations of [SpecFloat] at precision 53 and [emax] 1024.
    - a call that may raise returns a [res]: [Ok v] or [Raise e].
    - [dict] is an association list where the iteration order matters (the
      unit table) and a [gmap] otherwise.

    The functions of the interpreter and of its library that the sources
    call ([int], [float], [repr], [str.replace], [time.sleep],
    [base64.b64decode], [bytes.decode], [os.path.join], ...) are modelled
    as CPython 3.11 has them, with the texts of their exceptions. *)

From stdpp Require Import base gmap strings list sorting.
From Stdlib Require Import ZArith Lia Ascii SpecFloat Sorting.Sorted Permutation.

#[local] Open Scope Z_scope.

(** ** Exceptions *)

(** The exception classes that occur in the sources, with the part of the
    class hierarchy of the interpreter they live in.  [binascii_Error] is
    [binascii.Error]; [Unauthorized] is [werkzeug.exceptions.Unauthorized];
    [UserClass name base] is any further class derived from [base]. *)
Inductive pyclass : Type :=
  | BaseException
  | Exception
  | SystemExit
  | KeyboardInterrupt
  | ArithmeticError
  | OverflowError
  | ZeroDivisionError
  | AttributeError
  | LookupError
  | IndexError
  | KeyError
  | TypeError
  | ValueError
  | UnicodeError
  | UnicodeDecodeError
  | binascii_Error
  | RuntimeError
  | OSError
  | FileNotFoundError
  | NotADirectoryError
  | HTTPException
  | Unauthorized
  | ApiException
  | UserClass (name : string) (base : pyclass).

(** Modelled from the spec: the class [ApiException] of
    [puffotter/flask/exceptions.py] is not among the sources; it is "an
    explicit API exception carrying a status code and reason", taken here as
    a direct subclass of [Exception]. *)
Definition ancestors (c : pyclass) : list pyclass :=
  match c with
  | BaseException => []
  | Exception | SystemExit | KeyboardInterrupt => [BaseException]
  | ArithmeticError | AttributeError | LookupError | TypeError | ValueError
  | RuntimeError | OSError | HTTPException | ApiException =>
      [Exception; BaseException]
  | OverflowError | ZeroDivisionError =>
      [ArithmeticError; Exception; BaseException]
  | IndexError | KeyError => [LookupError; Exception; BaseException]
  | UnicodeError | binascii_Error => [ValueError; Exception; BaseException]
  | UnicodeDecodeError =>
      [UnicodeError; ValueError; Exception; BaseException]
  | FileNotFoundError | NotADirectoryError =>
      [OSError; Exception; BaseException]
  | Unauthorized => [HTTPException; Exception; BaseException]
  | UserClass _ _ => []
  end.

(** The method resolution order of a class: the class and its ancestors. *)
Fixpoint mro (c : pyclass) : list pyclass :=
  c :: match c with
       | UserClass _ base => mro base
       | _ => ancestors c
       end.

#[global] Instance pyclass_eq_dec : EqDecision pyclass.
Proof. solve_decision. Defined.

(** [type.__name__] *)
Definition class_name (c : pyclass) : string :=
  match c with
  | BaseException => "BaseException"
  | Exception => "Exception"
  | SystemExit => "SystemExit"
  | KeyboardInterrupt => "KeyboardInterrupt"
  | ArithmeticError => "ArithmeticError"
  | OverflowError => "OverflowError"
  | ZeroDivisionError => "ZeroDivisionError"
  | AttributeError => "AttributeError"
  | LookupError => "LookupError"
  | IndexError => "IndexError"
  | KeyError => "KeyError"
  | TypeError => "TypeError"
  | ValueError => "ValueError"
  | UnicodeError => "UnicodeError"
  | UnicodeDecodeError => "UnicodeDecodeError"
  | binascii_Error => "Error"
  | RuntimeError => "RuntimeError"
  | OSError => "OSError"
  | FileNotFoundError => "FileNotFoundError"
  | NotADirectoryError => "NotADirectoryError"
  | HTTPException => "HTTPException"
  | Unauthorized => "Unauthorized"
  | ApiException => "ApiException"
  | UserClass name _ => name
  end.

(** [issubclass c d]: [d] is [c] or one of its ancestors. *)
Definition issubclass (c d : pyclass) : bool := bool_decide (d ∈ mro c).

(** An exception object: an instance of a class with the text [str(e)], or
    an [ApiException(reason, status_code)]. *)
Inductive exn : Type :=
  | PyExc (cls : pyclass) (msg : string)
  | ApiExc (reason : string) (status_code : Z).

Definition type_of (e : exn) : pyclass :=
  match e with
  | PyExc c _ => c
  | ApiExc _ _ => ApiException
  end.

Definition isinstance (e : exn) (c : pyclass) : bool := issubclass (type_of e) c.

(** [isinstance(e, (c1, ..., cn))] and the test of an [except] clause. *)
Definition isinstance_any (e : exn) (cs : list pyclass) : bool :=
  existsb (isinstance e) cs.

(** ** Results of calls that may raise *)

Inductive res (A : Type) : Type :=
  | Ok (a : A)
  | Raise (e : exn).
Arguments Ok {A} a.
Arguments Raise {A} e.

#[global] Instance res_ret : MRet res := fun A a => Ok a.
#[global] Instance res_bind : MBind res := fun A B k r =>
  match r with
  | Ok a => k a
  | Raise e => Raise e
  end.

(** The class of the exception a call raised, if it raised. *)
Definition raised {A} (r : res A) : option pyclass :=
  match r with
  | Ok _ => None
  | Raise e => Some (type_of e)
  end.

(** ** Python strings *)

Module Str.

Definition ord (c : ascii) : Z := Z.of_N (N_of_ascii c).
Definition chr (n : Z) : ascii := ascii_of_N (Z.to_N n).

Definition between (lo hi n : Z) : bool := (lo <=? n) && (n <=? hi).

(** [str.lower] on one character: the ASCII capitals and the capitals of
    the Latin-1 block (all of 0xC0..0xDE but the multiplication sign). *)
Definition char_lower (c : ascii) : ascii :=
  let n := ord c in
  if between 65 90 n || (between 192 222 n && negb (n =? 215))
  then chr (n + 32) else c.

Fixpoint lower (s : string) : string :=
  match s with
  | EmptyString => EmptyString
  | String c s' => String (char_lower c) (lower s')
  end.

(** ASCII capitalisation, the inverse of [lower] on the letters a..z. *)
Definition char_upper_ascii (c : ascii) : ascii :=
  let n := ord c in if between 97 122 n then chr (n - 32) else c.

Fixpoint upper_ascii (s : string) : string :=
  match s with
  | EmptyString => EmptyString
  | String c s' => String (char_upper_ascii c) (upper_ascii s')
  end.

(** The characters 0..9, which [int] and [float] read as digits. *)
Definition is_decimal (c : ascii) : bool := between 48 57 (ord c).

(** [str.isdigit] on one character: the decimal digits and the
    superscript digits of Latin-1. *)
Definition isdigit (c : ascii) : bool :=
  let n := ord c in
  is_decimal c || (n =? 178) || (n =? 179) || (n =? 185).

(** White space as [int] and [float] strip it: the white space of ASCII,
    and the two white space characters of Latin-1 above it, which the
    conversions turn into blanks first. *)
Definition isspace (c : ascii) : bool :=
  let n := ord c in
  between 9 13 n || (n =? 32) || (n =? 133) || (n =? 160).

Fixpoint startswith (s p : string) {struct p} : bool :=
  match p, s with
  | EmptyString, _ => true
  | String a p', String b s' => bool_decide (a = b) && startswith s' p'
  | String _ _, EmptyString => false
  end.

Fixpoint drop (n : nat) (s : string) : string :=
  match n, s with
  | O, _ => s
  | S n', String _ s' => drop n' s'
  | S _, EmptyString => EmptyString
  end.

(** [s.endswith(suffix)] *)
Fixpoint endswith (s suffix : string) : bool :=
  bool_decide (s = suffix) ||
  match s with
  | EmptyString => false
  | String _ s' => endswith s' suffix
  end.

(** [s.find(sub)]: the index of the first occurrence, or -1. *)
Fixpoint find_from (sub s : string) (i : Z) : Z :=
  if startswith s sub then i
  else match s with
       | EmptyString => -1
       | String _ s' => find_from sub s' (i + 1)
       end.

Definition find (s sub : string) : Z := find_from sub s 0.

(** [s[-1]] *)
Fixpoint last (s : string) : res ascii :=
  match s with
  | EmptyString => Raise (PyExc IndexError "string index out of range")
  | String c EmptyString => Ok c
  | String _ s' => last s'
  end.

(** [s[:-1]] *)
Fixpoint but_last (s : string) : string :=
  match s with
  | EmptyString => EmptyString
  | String _ EmptyString => EmptyString
  | String c s' => String c (but_last s')
  end.

(** [s.replace(old, new, count)] for a non-empty [old]: occurrences are
    found from the left and do not overlap; [skip] counts the characters
    of a match still to be dropped; a negative [count] is no limit. *)
Fixpoint replace_go (old new : string) (skip : nat) (count : Z) (s : string)
  : string :=
  match s with
  | EmptyString => EmptyString
  | String c s' =>
      match skip with
      | S k => replace_go old new k count s'
      | O =>
          if (count =? 0) then s
          else if startswith s old
               then new +:+ replace_go old new (String.length old - 1) (count - 1) s'
               else String c (replace_go old new O count s')
      end
  end.

(** [s.replace("", new, count)]: [new] goes before every character and at
    the end. *)
Fixpoint replace_empty (new : string) (count : Z) (s : string) : string :=
  if count =? 0 then s
  else match s with
       | EmptyString => new
       | String c s' => new +:+ String c (replace_empty new (count - 1) s')
       end.

Definition replace_count (s old new : string) (count : Z) : string :=
  match old with
  | EmptyString => replace_empty new count s
  | _ => replace_go old new O count s
  end.

Definition replace (s old new : string) : string := replace_count s old new (-1).

Fixpoint lstrip (s : string) : string :=
  match s with
  | String c s' => if isspace c then lstrip s' else s
  | EmptyString => EmptyString
  end.

Fixpoint rstrip (s : string) : string :=
  match s with
  | EmptyString => EmptyString
  | String c s' =>
      match rstrip s' with
      | EmptyString => if isspace c then EmptyString else String c EmptyString
      | r => String c r
      end
  end.

Definition strip (s : string) : string := lstrip (rstrip s).

(** [s.split(sep, 1)[0]] for a one-character [sep]: the part before the
    first [sep], all of [s] when there is none. *)
Fixpoint split_first (sep : ascii) (s : string) : string :=
  match s with
  | EmptyString => EmptyString
  | String c s' =>
      if bool_decide (c = sep) then EmptyString
      else String c (split_first sep s')
  end.

(** [s[:n]] *)
Fixpoint take (n : nat) (s : string) : string :=
  match n, s with
  | S n', String c s' => String c (take n' s')
  | _, _ => EmptyString
  end.

Fixpoint contains (c : ascii) (s : string) : bool :=
  match s with
  | EmptyString => false
  | String d s' => bool_decide (d = c) || contains c s'
  end.

(** [repr(s)]: the characters [repr] writes as they are, the escapes of
    the others, and the quotes, which are double quotes only for a string
    with a single quote and no double quote. *)
Definition isprintable (c : ascii) : bool :=
  let n := ord c in
  between 32 126 n || (between 161 255 n && negb (n =? 173)).

Definition hex_digit (n : Z) : ascii :=
  if n <? 10 then chr (48 + n) else chr (87 + n).

Definition backslash : ascii := chr 92.
Definition single_quote : ascii := chr 39.
Definition double_quote : ascii := chr 34.

Definition repr_char (quote c : ascii) : string :=
  let n := ord c in
  if bool_decide (c = quote) || bool_decide (c = backslash)
  then String backslash (String c EmptyString)
  else if n =? 9 then String backslash "t"
  else if n =? 10 then String backslash "n"
  else if n =? 13 then String backslash "r"
  else if isprintable c then String c EmptyString
  else String backslash
         (String "x" (String (hex_digit (n / 16))
                        (String (hex_digit (n mod 16)) EmptyString))).

Fixpoint repr_body (quote : ascii) (s : string) : string :=
  match s with
  | EmptyString => String quote EmptyString
  | String c s' => repr_char quote c +:+ repr_body quote s'
  end.

Definition repr (s : string) : string :=
  let quote :=
    if contains single_quote s && negb (contains double_quote s)
    then double_quote else single_quote in
  String quote (repr_body quote s).

(** Two observations of a string used to state what the byte parser
    does: whether its last character is a digit ([None] for the empty
    string), and whether it has a decimal point. *)
Definition last_isdigit (s : string) : option bool :=
  match last s with
  | Ok c => Some (isdigit c)
  | Raise _ => None
  end.

Definition right_biased (x y : option bool) : option bool :=
  match y with
  | None => x
  | Some _ => y
  end.

Fixpoint has_dot (s : string) : bool :=
  match s with
  | EmptyString => false
  | String c s' => bool_decide (c = "."%char) || has_dot s'
  end.

(** Strings of decimal digits and the number they denote. *)
Fixpoint all_decimal (s : string) : bool :=
  match s with
  | EmptyString => true
  | String c s' => is_decimal c && all_decimal s'
  end.

Fixpoint decimal_value_from (s : string) (acc : Z) : Z :=
  match s with
  | EmptyString => acc
  | String c s' => decimal_value_from s' (acc * 10 + (ord c - 48))
  end.

Definition decimal_value (s : string) : Z := decimal_value_from s 0.

End Str.

(** ** Python numbers: [int(str)], [float(str)], [float(int)], [int(float)] *)

Module Num.
Import Str.

(** binary64 *)
Definition prec : Z := 53.
Definition emax : Z := 1024.
Abbreviation float := spec_float.

Definition fmul : float -> float -> float := SFmul prec emax.
Definition fdiv : float -> float -> float := SFdiv prec emax.

(** [str(n)] for a non-negative [int]. *)
Fixpoint digits_of_pos (fuel : nat) (n : Z) (acc : string) : string :=
  match fuel with
  | O => acc
  | S fuel' =>
      let acc' := String (chr (48 + n mod 10)) acc in
      if n <? 10 then acc' else digits_of_pos fuel' (n / 10) acc'
  end.

Definition str_of_nonneg (n : Z) : string :=
  digits_of_pos (S (Z.to_nat (Z.log2 n))) n EmptyString.

(** The errors of the conversions, with the text they carry. *)
Definition int_too_large {A} : res A :=
  Raise (PyExc OverflowError "int too large to convert to float").

Definition infinity_to_integer {A} : res A :=
  Raise (PyExc OverflowError "cannot convert float infinity to integer").

Definition nan_to_integer {A} : res A :=
  Raise (PyExc ValueError "cannot convert float NaN to integer").

(** The [repr] of the argument is cut after 200 characters. *)
Definition invalid_literal {A} (s : string) : res A :=
  Raise (PyExc ValueError
           ("invalid literal for int() with base 10: " +:+ take 200 (repr s))).

Definition could_not_convert {A} (s : string) : res A :=
  Raise (PyExc ValueError ("could not convert string to float: " +:+ repr s)).

(** [sys.get_int_max_str_digits()], as the interpreter starts with it. *)
Definition int_max_str_digits : Z := 4300.

Definition exceeds_limit {A} (digits : Z) : res A :=
  Raise (PyExc ValueError
           ("Exceeds the limit (" +:+ str_of_nonneg int_max_str_digits
              +:+ " digits) for integer string conversion: value has "
              +:+ str_of_nonneg digits
              +:+ " digits; use sys.set_int_max_str_digits() to increase the limit")).

(** [float(n)] for an [int]: rounded to the nearest float, ties to even;
    an [int] beyond the floats raises [OverflowError]. *)
Definition float_of_int (n : Z) : res float :=
  match binary_normalize prec emax n 0 false with
  | S754_infinity _ => int_too_large
  | f => Ok f
  end.

(** [int(x)] for a [float]: truncation towards zero. *)
Definition int_of_float (x : float) : res Z :=
  match x with
  | S754_zero _ => Ok 0
  | S754_infinity _ => infinity_to_integer
  | S754_nan => nan_to_integer
  | S754_finite s m e =>
      let a := if 0 <=? e then Z.pos m * 2 ^ e else Z.pos m / 2 ^ (- e) in
      Ok (if s then - a else a)
  end.

Definition digit_val (c : ascii) : Z := ord c - 48.

(** What came before the current character of a digit string. *)
Inductive prev_char : Type := AtStart | AfterDigit | AfterUnderscore.

(** The run of digits and underscores at the start of a string, as [int]
    scans it: [None] when an underscore comes first, last or after
    another one; otherwise the value of the digits, their number and the
    rest of the string. *)
Fixpoint scan_digits (s : string) (prev : prev_char) (acc digits : Z)
  : option (Z * Z * string) :=
  let stop :=
    match prev with
    | AfterUnderscore => None
    | _ => Some (acc, digits, s)
    end in
  match s with
  | EmptyString => stop
  | String c s' =>
      if is_decimal c
      then scan_digits s' AfterDigit (acc * 10 + digit_val c) (digits + 1)
      else if bool_decide (c = "_"%char)
           then match prev with
                | AfterDigit => scan_digits s' AfterUnderscore acc digits
                | _ => None
                end
           else stop
  end.

(** An optional sign: [true] for "-". *)
Definition split_sign (s : string) : bool * string :=
  match s with
  | String "-"%char s' => (true, s')
  | String "+"%char s' => (false, s')
  | _ => (false, s)
  end.

(** [int(s)] in base 10: white space around the number, a sign, the run
    of digits; a run of more digits than the limit is refused before the
    rest of the string is looked at. *)
Definition int_of_str (s : string) : res Z :=
  let (neg, body) := split_sign (strip s) in
  match scan_digits body AtStart 0 0 with
  | None => invalid_literal s
  | Some (n, digits, rest) =>
      if int_max_str_digits <? digits then exceeds_limit digits
      else if (digits =? 0) || negb (bool_decide (rest = EmptyString))
           then invalid_literal s
           else Ok (if neg then - n else n)
  end.

(** [float] first checks the underscores of its argument (each one
    between two digits) and removes them. *)
Fixpoint remove_underscores (s : string) (prev : ascii) : option string :=
  match s with
  | EmptyString =>
      if bool_decide (prev = "_"%char) then None else Some EmptyString
  | String c s' =>
      if bool_decide (c = "_"%char)
      then if is_decimal prev then remove_underscores s' c else None
      else if bool_decide (prev = "_"%char) && negb (is_decimal c) then None
           else match remove_underscores s' c with
                | Some r => Some (String c r)
                | None => None
                end
  end.

(** The longest prefix of decimal digits: its value, its length and the
    rest of the string. *)
Fixpoint take_digits (s : string) (acc : Z) (len : Z) : Z * Z * string :=
  match s with
  | String c s' =>
      if is_decimal c then take_digits s' (acc * 10 + digit_val c) (len + 1)
      else (acc, len, s)
  | EmptyString => (acc, len, s)
  end.

(** The exponent part of a decimal literal: "e" or "E", an optional sign
    and at least one digit.  When the digits are missing the "e" is not
    part of the number. *)
Definition take_exponent (s : string) : Z * string :=
  match s with
  | String c s' =>
      if bool_decide (char_lower c = "e"%char)
      then let (neg, body) := split_sign s' in
           let '(n, len, rest) := take_digits body 0 0 in
           if len =? 0 then (0, s) else (if neg then - n else n, rest)
      else (0, s)
  | EmptyString => (0, s)
  end.

(** The float nearest to [(-1)^neg * n * 10^e], ties to even. *)
Definition round_decimal (neg : bool) (n e : Z) : float :=
  match n * 10 ^ Z.max e 0, 10 ^ Z.max (- e) 0 with
  | Z.pos p, Z.pos q => fdiv (S754_finite neg p 0) (S754_finite false q 0)
  | _, _ => S754_zero neg
  end.

(** A decimal literal read from the start of [s]: digits, an optional
    point and digits, an optional exponent; the float and the rest of
    the string. *)
Definition take_number (neg : bool) (s : string) : option (float * string) :=
  let '(n1, len1, rest1) := take_digits s 0 0 in
  let '(n, len2, rest2) :=
    match rest1 with
    | String "."%char r => take_digits r n1 0
    | _ => (n1, 0, rest1)
    end in
  if len1 + len2 =? 0 then None
  else let (e, rest3) := take_exponent rest2 in
       Some (round_decimal neg n (e - len2), rest3).

(** "inf", "infinity" and "nan" in any capitalisation. *)
Definition take_inf_or_nan (neg : bool) (s : string) : option (float * string) :=
  let l := lower s in
  if startswith l "inf"
  then if startswith l "infinity" then Some (S754_infinity neg, drop 8 s)
       else Some (S754_infinity neg, drop 3 s)
  else if startswith l "nan" then Some (S754_nan, drop 3 s)
       else None.

(** [float(s)] *)
Definition float_of_str (s : string) : res float :=
  match remove_underscores (strip s) "000"%char with
  | None => could_not_convert s
  | Some t =>
      let (neg, body) := split_sign t in
      let parsed :=
        match take_number neg body with
        | Some r => Some r
        | None => take_inf_or_nan neg body
        end in
      match parsed with
      | Some (x, EmptyString) => Ok x
      | _ => could_not_convert s
      end
  end.

(** ["%.3f" % x]: the decimal with three digits after the point that is
    nearest to the exact value of [x], ties to even. *)
Definition round_half_even (num den : Z) : Z :=
  let q := num / den in
  let r := num mod den in
  match 2 * r ?= den with
  | Lt => q
  | Gt => q + 1
  | Eq => if Z.even q then q else q + 1
  end.

Definition thousandths (m : positive) (e : Z) : Z :=
  if 0 <=? e then Z.pos m * 2 ^ e * 1000
  else round_half_even (Z.pos m * 1000) (2 ^ (- e)).

Definition pad3 (n : Z) : string :=
  String (chr (48 + n / 100 mod 10))
    (String (chr (48 + n / 10 mod 10))
       (String (chr (48 + n mod 10)) EmptyString)).

Definition sign_str (neg : bool) : string := if neg then "-" else "".

Definition format_3f (x : float) : string :=
  match x with
  | S754_nan => "nan"
  | S754_infinity s => sign_str s +:+ "inf"
  | S754_zero s => sign_str s +:+ "0.000"
  | S754_finite s m e =>
      let t := thousandths m e in
      sign_str s +:+ str_of_nonneg (t / 1000) +:+ "." +:+ pad3 (t mod 1000)
  end.

End Num.

(** [try: r  except cs as e: handler e] *)
Definition try_except {A} (r : res A) (cs : list pyclass) (handler : exn -> res A)
  : res A :=
  match r with
  | Ok a => Ok a
  | Raise e => if isinstance_any e cs then handler e else Raise e
  end.

(** ** puffotter/units.py *)

Module Units.
Import Str Num.

(** The [units] dictionary of [byte_string_to_byte_count], in insertion
    order, which is the order the [for] loop visits its keys in. *)
Definition units : list (string * Z) :=
  [ ("k", 1000);
    ("m", 1000000);
    ("g", 1000000000);
    ("t", 1000000000000);
    ("p", 1000000000000000);
    ("e", 1000000000000000000) ].

(** [d[key]]; the text of a [KeyError] is the [repr] of the key. *)
Fixpoint getitem (d : list (string * Z)) (key : string) : res Z :=
  match d with
  | [] => Raise (PyExc KeyError (repr key))
  | (k, v) :: d' => if bool_decide (k = key) then Ok v else getitem d' key
  end.

(** One round of the [for unit in units] loop. *)
Definition strip_unit (byte_string : string) (entry : string * Z) : string :=
  let unit := fst entry in
  let byte_string := replace byte_string (unit +:+ "b/s") unit in
  replace byte_string (unit +:+ "b") unit.

Definition strip_suffixes (byte_string : string) : string :=
  fold_left strip_unit units byte_string.

Definition byte_string_to_byte_count (byte_string : string) : res Z :=
  let byte_string := lower byte_string in
  let byte_string := strip_suffixes byte_string in
  multiplier_char ← last byte_string;
  if isdigit multiplier_char then
    if negb (find byte_string "." =? -1) then Raise (PyExc ValueError "")
    else int_of_str byte_string
  else
    try_except
      (multiplier ← getitem units (String multiplier_char EmptyString);
       x ← float_of_str (but_last byte_string);
       y ← float_of_int multiplier;
       int_of_float (fmul x y))
      [KeyError]
      (fun _ => Raise (PyExc ValueError "")).

(** The [units] list of [human_readable_bytes]. *)
Definition unit_names : list string := ["K"; "M"; "G"; "T"; "P"; "E"; "Z"; "Y"].

(** [l[i]] for a list, a negative [i] counting from the end. *)
Definition list_getitem (l : list string) (i : Z) : res string :=
  let n := Z.of_nat (length l) in
  let j := if i <? 0 then i + n else i in
  if (0 <=? j) && (j <? n)
  then match l !! Z.to_nat j with
       | Some x => Ok x
       | None => Raise (PyExc IndexError "list index out of range")
       end
  else Raise (PyExc IndexError "list index out of range").

(** The [while True] loop: [None] when [fuel] rounds did not reach the
    [break]. *)
Fixpoint scale_loop (fuel : nat) (base : Z) (_bytes : float) (unit_index : Z)
  : option (res (float * Z)) :=
  match fuel with
  | O => None
  | S fuel' =>
      match float_of_int base with
      | Raise e => Some (Raise e)
      | Ok b =>
          let _bytes := fdiv _bytes b in
          let unit_index := unit_index + 1 in
          match int_of_float _bytes with
          | Raise e => Some (Raise e)
          | Ok n =>
              if (n <? base) || (unit_index =? Z.of_nat (length unit_names) - 1)
              then Some (Ok (_bytes, unit_index))
              else scale_loop fuel' base _bytes unit_index
          end
      end
  end.

(** The loop that moves [string_index] left over the zeros at the end:
    [None] when every character is a zero, where the index runs off the
    string. *)
Fixpoint drop_trailing_zeroes (s : string) : option string :=
  match s with
  | EmptyString => None
  | String c s' =>
      match drop_trailing_zeroes s' with
      | Some r => Some (String c r)
      | None =>
          if bool_decide (c = "0"%char) then None
          else Some (String c EmptyString)
      end
  end.

Definition trim (bytestring : string) : res string :=
  match drop_trailing_zeroes bytestring with
  | None => Raise (PyExc IndexError "string index out of range")
  | Some bytestring =>
      Ok (if endswith bytestring "." then but_last bytestring else bytestring)
  end.

(** [human_readable_bytes]; the outer [option] is [None] only if the loop
    needed more than eight rounds, which [scale_loop_terminates] below
    excludes. *)
Definition human_readable_bytes
  (bytecount : Z) (base_1024 : bool) (remove_trailing_zeroes : bool)
  : option (res string) :=
  let base := if base_1024 then 1024 else 1000 in
  match float_of_int bytecount with
  | Raise e => Some (Raise e)
  | Ok _bytes =>
      match scale_loop 8 base _bytes (-1) with
      | None => None
      | Some (Raise e) => Some (Raise e)
      | Some (Ok (_bytes, unit_index)) =>
          Some (
            let bytestring := format_3f _bytes in
            bytestring ← (if remove_trailing_zeroes then trim bytestring
                          else Ok bytestring);
            let i := if base_1024 then "i" else "" in
            unit ← list_getitem unit_names unit_index;
            Ok (bytestring +:+ unit +:+ i +:+ "B"))
      end
  end.

(** *** The two kinds of invalid format the specification names *)

Definition is_unit_letter (c : ascii) : bool :=
  bool_decide (String c EmptyString ∈ map fst units).

(** The input is a bare number, its last character a digit, with a
    decimal point in it. *)
Definition bare_fraction (s : string) : bool :=
  match last s with
  | Ok c => isdigit c && has_dot s
  | Raise _ => false
  end.

(** The character that is last after the suffixes are stripped is
    neither a digit nor a unit letter. *)
Definition unknown_unit (s : string) : bool :=
  match last (strip_suffixes (lower s)) with
  | Ok c => negb (isdigit c) && negb (is_unit_letter c)
  | Raise _ => false
  end.

Definition invalid_format (s : string) : bool :=
  bare_fraction s || unknown_unit s.

End Units.

(** ** puffotter/os.py *)

Module Os.
Import Str.

(** What [listdir] asks of the operating system: [os.listdir], which
    returns the names in a directory in no particular order or raises,
    [os.path.isfile] and [os.path.isdir]. *)
Record filesystem : Type := {
  os_listdir : string -> res (list string);
  isfile : string -> bool;
  isdir : string -> bool
}.

(** [os.path.join(path, child)] of [posixpath]. *)
Definition join (path child : string) : string :=
  if startswith child "/" then child
  else if bool_decide (path = "") || endswith path "/" then path +:+ child
  else path +:+ "/" +:+ child.

(** [sorted] on a list of [str]: a stable merge sort by code points. *)
Definition sorted (l : list string) : list string := merge_sort String.le l.

Section Listdir.
Variable fs : filesystem.
Variable path : string.
Variables no_files no_dirs no_dot : bool.

(** The body of the [for] loop: [content] as it is after [child]. *)
Definition visit (content : list (string * string)) (child : string)
  : list (string * string) :=
  let child_path := join path child in
  if no_files && isfile fs child_path then content
  else if no_dirs && isdir fs child_path then content
  else if no_dot && startswith child "." then content
  else content ++ [(child, child_path)].

Definition listdir : res (list (string * string)) :=
  children ← os_listdir fs path;
  Ok (fold_left visit (sorted children) []).

(** The children the loop keeps. *)
Definition kept (child : string) : bool :=
  negb (no_files && isfile fs (join path child)) &&
  negb (no_dirs && isdir fs (join path child)) &&
  negb (no_dot && startswith child ".").
End Listdir.

(** A directory for the examples: two files, a hidden file and a
    sub-directory, listed out of order. *)
Definition example_fs : filesystem := {|
  os_listdir p :=
    if bool_decide (p = "/srv")
    then Ok ["notes.txt"; ".cache"; "data"; "a.py"]
    else Raise (PyExc FileNotFoundError p);
  isfile p := bool_decide (p ∈ ["/srv/notes.txt"; "/srv/.cache"; "/srv/a.py"]);
  isdir p := bool_decide (p ∈ ["/srv"; "/srv/data"])
|}.

End Os.

(** ** puffotter/flask/routes/decorators.py *)

Module Api.
Import Str.

(** JSON values; [JNull] is also Python's [None]. *)
#[warnings="-register-all"] Inductive json : Type :=
  | JNull
  | JBool (b : bool)
  | JNum (n : Z)
  | JStr (s : string)
  | JList (l : list json)
  | JDict (d : list (string * json)).

(** [isinstance(v, dict)] *)
Definition is_dict (v : json) : bool :=
  match v with
  | JDict _ => true
  | _ => false
  end.

(** The part of [flask.request] the decorator reads.  [content_type] is
    [None] when the request has no Content-Type header; [get_json] is the
    value of [request.get_json(silent=True)]. *)
Record request : Type := {
  content_type : option string;
  is_json : bool;
  get_json : json;
  method : string
}.

(** [make_response(jsonify(body), code)] *)
Record http_response : Type := {
  status_code : Z;
  body : gmap string json
}.

(** The attributes [reason] and [status_code] of an exception object;
    only an [ApiException] has them. *)
Definition exn_reason (e : exn) : res string :=
  match e with
  | ApiExc reason _ => Ok reason
  | PyExc _ _ =>
      Raise (PyExc AttributeError "object has no attribute 'reason'")
  end.

Definition exn_status_code (e : exn) : res Z :=
  match e with
  | ApiExc _ code => Ok code
  | PyExc _ _ =>
      Raise (PyExc AttributeError "object has no attribute 'status_code'")
  end.

(** The exception classes of the [except] clause of [api]. *)
Definition whitelist : list pyclass :=
  [KeyError; TypeError; ValueError; ApiException].

(** The expression bound to [is_json]: [content_type.startswith] raises
    [AttributeError] on [None]; [and] evaluates from the left. *)
Definition body_is_json (req : request) : res bool :=
  match content_type req with
  | None =>
      Raise (PyExc AttributeError
               "'NoneType' object has no attribute 'startswith'")
  | Some ct =>
      Ok (startswith ct "application/json" && is_json req
          && is_dict (get_json req))
  end.

Definition requires_json (req : request) : bool :=
  bool_decide (method req ∈ ["POST"; "PUT"; "DELETE"]).

Section Api.
(** The state the wrapped handler works on. *)
Context {S : Type}.

(** A handler: called on a state, it returns or raises and leaves a
    state. *)
Definition handler : Type := S -> res json * S.

(** What a call of the wrapper leaves: its result, the state, and how
    often it called the handler. *)
Record outcome : Type := {
  result : res http_response;
  state : S;
  calls : nat
}.

(** The [try] block of [wrapper]. *)
Definition try_block (func : handler) (req : request) (s : S)
  (response : gmap string json) : res (gmap string json) * S * nat :=
  match body_is_json req with
  | Raise e => (Raise e, s, O)
  | Ok is_json =>
      if requires_json req && negb is_json
      then (Raise (ApiExc "Not in JSON format" 400), s, O)
      else
        let (r, s') := func s in
        match r with
        | Ok data => (Ok (<["data" := data]> response), s', 1%nat)
        | Raise e => (Raise e, s', 1%nat)
        end
  end.

(** The [except] clause of [wrapper], for an exception it catches. *)
Definition except_block (e : exn) (response : gmap string json)
  : res http_response :=
  let response := <["status" := JStr "error"]> response in
  if isinstance e ApiException then
    code ← exn_status_code e;
    reason ← exn_reason e;
    Ok {| status_code := code;
          body := <["reason" := JStr reason]> response |}
  else
    Ok {| status_code := 400;
          body := <["reason" :=
                      JStr ("Bad Request: " +:+ class_name (type_of e))]>
                    response |}.

(** [api(func)] called on a request. *)
Definition api (func : handler) (req : request) (s : S) : outcome :=
  let code := 200 in
  let response : gmap string json := {[ "status" := JStr "ok" ]} in
  let '(r, s', n) := try_block func req s response in
  {| result :=
       match r with
       | Ok response => Ok {| status_code := code; body := response |}
       | Raise e =>
           if isinstance_any e whitelist then except_block e response
           else Raise e
       end;
     state := s';
     calls := n |}.
End Api.

Arguments handler : clear implicits.
Arguments outcome : clear implicits.

(** The envelopes of the specification. *)
Definition ok_envelope (data : json) : gmap string json :=
  <["data" := data]> {[ "status" := JStr "ok" ]}.

Definition error_envelope (reason : string) : gmap string json :=
  <["reason" := JStr reason]> {[ "status" := JStr "error" ]}.

(** The claim that every request other than a GET needs a JSON body, as
    the specification words it: the handler is not called and the
    response is an error of the 400 class. *)
Definition rejected {S} (o : outcome S) : Prop :=
  calls o = O /\
  exists code reason,
    result o = Ok {| status_code := code; body := error_envelope reason |} /\
    400 <= code < 500.

(** Requests and a handler for the examples: the handler counts its
    calls and answers with the count. *)
Definition counting_handler : handler nat :=
  fun n => (Ok (JNum (Z.of_nat (Datatypes.S n))), Datatypes.S n).

Definition post_text : request := {|
  content_type := Some "text/plain";
  is_json := false;
  get_json := JNull;
  method := "POST"
|}.

Definition patch_text : request := {|
  content_type := Some "text/plain";
  is_json := false;
  get_json := JNull;
  method := "PATCH"
|}.

Definition get_plain : request := {|
  content_type := Some "text/html";
  is_json := false;
  get_json := JNull;
  method := "GET"
|}.

(** A GET as a client sends it: without a Content-Type header. *)
Definition bare_get : request := {|
  content_type := None;
  is_json := false;
  get_json := JNull;
  method := "GET"
|}.

Definition post_json : request := {|
  content_type := Some "application/json";
  is_json := true;
  get_json := JDict [("name", JStr "otter")];
  method := "POST"
|}.

End Api.

(** ** The codecs of the request loader: [str.encode], [base64.b64decode]
    and [bytes.decode]

    [bytes] are strings of the characters 0..255. *)

Module Codec.
Import Str Num.

(** [s.encode("utf-8")] for a string of code points below 256: one byte
    for a code point below 128, two bytes from there. *)
Fixpoint encode_utf8 (s : string) : string :=
  match s with
  | EmptyString => EmptyString
  | String c s' =>
      let n := ord c in
      if n <? 128 then String c (encode_utf8 s')
      else String (chr (192 + n / 64))
             (String (chr (128 + n mod 64)) (encode_utf8 s'))
  end.

(** The value of a character of the base64 alphabet. *)
Definition b64_value (c : ascii) : option Z :=
  let n := ord c in
  if between 65 90 n then Some (n - 65)
  else if between 97 122 n then Some (n - 71)
  else if between 48 57 n then Some (n + 4)
  else if n =? 43 then Some 62
  else if n =? 47 then Some 63
  else None.

Definition push (b : Z) (r : res string) : res string :=
  match r with
  | Ok s => Ok (String (chr b) s)
  | Raise e => Raise e
  end.

Definition excess_character {A} (written : Z) : res A :=
  Raise (PyExc binascii_Error
           ("Invalid base64-encoded string: number of data characters ("
              +:+ str_of_nonneg (written / 3 * 4 + 1)
              +:+ ") cannot be 1 more than a multiple of 4")).

Definition incorrect_padding {A} : res A :=
  Raise (PyExc binascii_Error "Incorrect padding").

(** [binascii.a2b_base64] as [base64.b64decode] calls it, not in strict
    mode: characters outside the alphabet are skipped, a pad that
    completes a group of four ends the decoding, and the input must not
    end inside a group.  [quad_pos] is the place in the group of four,
    [leftchar] the bits not yet written, [pads] the pads seen since the
    last character of the alphabet and [written] the number of bytes
    written so far. *)
Fixpoint a2b_base64 (data : string) (quad_pos leftchar pads written : Z)
  : res string :=
  match data with
  | EmptyString =>
      if quad_pos =? 0 then Ok EmptyString
      else if quad_pos =? 1 then excess_character written
      else incorrect_padding
  | String c data' =>
      if bool_decide (c = "="%char) then
        if 2 <=? quad_pos then
          if 4 <=? quad_pos + (pads + 1) then Ok EmptyString
          else a2b_base64 data' quad_pos leftchar (pads + 1) written
        else a2b_base64 data' quad_pos leftchar pads written
      else
        match b64_value c with
        | None => a2b_base64 data' quad_pos leftchar pads written
        | Some this_ch =>
            if quad_pos =? 0 then a2b_base64 data' 1 this_ch 0 written
            else if quad_pos =? 1 then
              push (leftchar * 4 + this_ch / 16)
                (a2b_base64 data' 2 (this_ch mod 16) 0 (written + 1))
            else if quad_pos =? 2 then
              push (leftchar * 16 + this_ch / 4)
                (a2b_base64 data' 3 (this_ch mod 4) 0 (written + 1))
            else
              push (leftchar * 64 + this_ch)
                (a2b_base64 data' 0 0 0 (written + 1))
        end
  end.

(** [base64.b64decode(s)] for [bytes] *)
Definition b64decode (s : string) : res string := a2b_base64 s 0 0 0 0.

(** The text of a [UnicodeDecodeError] for the bytes from [first] up to,
    not including, [stop]. *)
Definition cannot_decode {A} (byte first stop : Z) (why : string) : res A :=
  Raise (PyExc UnicodeDecodeError
           (if stop =? first + 1
            then "'utf-8' codec can't decode byte 0x"
                   +:+ String (hex_digit (byte / 16))
                         (String (hex_digit (byte mod 16)) EmptyString)
                   +:+ " in position " +:+ str_of_nonneg first
                   +:+ ": " +:+ why
            else "'utf-8' codec can't decode bytes in position "
                   +:+ str_of_nonneg first +:+ "-"
                   +:+ str_of_nonneg (stop - 1) +:+ ": " +:+ why)).

Definition is_continuation (c : ascii) : bool := between 128 191 (ord c).

(** The check of [bytes.decode("utf-8")], from the byte at position [pos]
    on: it raises at the first byte sequence that is not UTF-8. *)
Fixpoint utf8_check (data : string) (pos : Z) : res unit :=
  match data with
  | EmptyString => Ok tt
  | String c1 rest1 =>
      let b := ord c1 in
      let truncated n := cannot_decode b pos (pos + n) "unexpected end of data" in
      let continuation n :=
        cannot_decode b pos (pos + n) "invalid continuation byte" in
      if b <? 128 then utf8_check rest1 (pos + 1)
      else if (b <? 194) || (244 <? b)
      then cannot_decode b pos (pos + 1) "invalid start byte"
      else
        match rest1 with
        | EmptyString => truncated 1
        | String c2 rest2 =>
            let b2 := ord c2 in
            if b <? 224 then
              if is_continuation c2 then utf8_check rest2 (pos + 2)
              else continuation 1
            else if b <? 240 then
              if negb (is_continuation c2)
                 || (if b2 <? 160 then b =? 224 else b =? 237)
              then continuation 1
              else
                match rest2 with
                | EmptyString => truncated 2
                | String c3 rest3 =>
                    if is_continuation c3 then utf8_check rest3 (pos + 3)
                    else continuation 2
                end
            else
              if negb (is_continuation c2)
                 || (if b2 <? 144 then b =? 240 else b =? 244)
              then continuation 1
              else
                match rest2 with
                | EmptyString => truncated 2
                | String c3 rest3 =>
                    if negb (is_continuation c3) then continuation 2
                    else
                      match rest3 with
                      | EmptyString => truncated 3
                      | String c4 rest4 =>
                          if is_continuation c4
                          then utf8_check rest4 (pos + 4)
                          else continuation 3
                      end
                end
        end
  end.

(** [b.decode("utf-8")].  The string it returns may hold any code point;
    it is kept as its UTF-8 encoding, which is [b] itself: splitting at
    ":" and comparing two strings give the same on the encoding as on the
    string. *)
Definition decode_utf8 (b : string) : res string :=
  match utf8_check b 0 with
  | Ok _ => Ok b
  | Raise e => Raise e
  end.

End Codec.

(** ** puffotter/flask/initialize.py: the request loader *)

Module Auth.
Import Str.

(** Rows of the two tables the loader reads. *)
Record ApiKey : Type := {
  key_user_id : Z;
  key_hash : string;
  creation_time : Z
}.

Record User : Type := {
  username : string;
  email : string
}.

(** The database: the two tables, by primary key, and the objects the
    session has marked for deletion and not yet committed. *)
Record database : Type := {
  api_keys : gmap string ApiKey;
  users : gmap Z User;
  deleted : list string
}.

(** [db.session.delete(key)], for the key stored under [id]. *)
Definition session_delete (id : string) (db : database) : database :=
  {| api_keys := api_keys db; users := users db;
     deleted := id :: deleted db |}.

(** [db.session.commit()] *)
Definition session_commit (db : database) : database :=
  {| api_keys := foldr delete (api_keys db) (deleted db);
     users := users db;
     deleted := [] |}.

(** What the loader calls and the sources do not define: the codecs of
    the standard library, on strings of bytes, and the two methods of
    [ApiKey].  The string [decode_utf8] returns is kept as its UTF-8
    encoding (see [Codec.decode_utf8]). *)
Record environment : Type := {
  encode_utf8 : string -> string;
  b64decode : string -> res string;
  decode_utf8 : string -> res string;
  verify_key : ApiKey -> string -> bool;
  has_expired : ApiKey -> bool
}.

(** The part of the request the loader reads: its headers. *)
Record request : Type := {
  headers : gmap string string
}.

Section Loader.
Variable env : environment.

(** The [try] block: [base64.b64decode(api_key.encode("utf-8"))
    .decode("utf-8")]. *)
Definition decode_api_key (api_key : string) : res string :=
  raw ← b64decode env (encode_utf8 env api_key);
  decode_utf8 env raw.

(** [load_user_from_request]: the user, or [None], or an exception,
    and the database it leaves. *)
Definition load_user_from_request (request : request) (db : database)
  : res (option User) * database :=
  match headers request !! "Authorization" with
  | None => (Ok None, db)
  | Some authorization =>
      let api_key := replace_count authorization "Basic " "" 1 in
      match decode_api_key api_key with
      | Raise e =>
          if isinstance_any e [TypeError; binascii_Error]
          then (Ok None, db)
          else (Raise e, db)
      | Ok api_key =>
          match api_keys db !! split_first ":" api_key with
          | None => (Ok None, db)
          | Some db_api_key =>
              if negb (verify_key env db_api_key api_key) then (Ok None, db)
              else if has_expired env db_api_key then
                let db := session_delete (split_first ":" api_key) db in
                let db := session_commit db in
                (Ok None, db)
              else (Ok (users db !! key_user_id db_api_key), db)
          end
      end
  end.
End Loader.

(** The environment of the interpreter: the codecs of [Codec], and two
    methods of [ApiKey], which is not among the sources. *)
Definition python_env (verify_key : ApiKey -> string -> bool)
  (has_expired : ApiKey -> bool) : environment := {|
  encode_utf8 := Codec.encode_utf8;
  b64decode := Codec.b64decode;
  decode_utf8 := Codec.decode_utf8;
  verify_key := verify_key;
  has_expired := has_expired
|}.

(** An environment for the examples: a key verifies when its secret is the
    stored hash; keys created before time 100 have expired. *)
Definition example_env : environment :=
  python_env
    (fun k key => bool_decide (key = split_first ":" key +:+ ":" +:+ key_hash k))
    (fun k => creation_time k <? 100).

Definition example_db : database := {|
  api_keys :=
    {[ "1" := {| key_user_id := 7; key_hash := "secret"; creation_time := 500 |};
       "2" := {| key_user_id := 7; key_hash := "old"; creation_time := 3 |} ]};
  users := {[ 7 := {| username := "otter"; email := "otter@example.org" |} ]};
  deleted := []
|}.

Definition request_with (authorization : string) : request :=
  {| headers := {[ "Authorization" := authorization ]} |}.

End Auth.

(** ** puffotter/flask/wsgi.py: the background tasks *)

Module Wsgi.

(** [str(error)] *)
Definition str_of_exn (e : exn) : string :=
  match e with
  | PyExc _ msg => msg
  | ApiExc reason _ => reason
  end.

(** The longest delay [time.sleep] takes, in seconds: the delay is turned
    into nanoseconds in a signed 64-bit integer. *)
Definition max_sleep : Z := (2 ^ 63 - 1) / 1000000000.

(** [time.sleep(d)] for an [int] [d]: a delay that does not fit into 64
    bits of nanoseconds raises [OverflowError], a negative one that does
    raises [ValueError]. *)
Definition sleep (d : Z) : res unit :=
  let ns := d * 1000000000 in
  if (ns <? - 2 ^ 63) || (2 ^ 63 - 1 <? ns)
  then Raise (PyExc OverflowError "timestamp too large to convert to C _PyTime_t")
  else if d <? 0
       then Raise (PyExc ValueError "sleep length must be non-negative")
       else Ok tt.

Section Task.
(** The state the callback works on. *)
Context {W : Type}.

(** An entry of [task_definitions]: the name, the delay and the
    callback, which returns or raises and leaves a state. *)
Record task : Type := {
  _name : string;
  _delay : Z;
  _function : W -> res unit * W
}.

(** What a thread that runs [run_task] has done so far: the state its
    callback left, the number of calls of the callback, the lines it
    logged, the delays it slept, and the exception that ended it, if
    one did. *)
Record thread : Type := {
  world : W;
  invocations : nat;
  logged : list string;
  slept : list Z;
  ended : option exn
}.

Definition start (w : W) : thread :=
  {| world := w; invocations := O; logged := []; slept := []; ended := None |}.

(** The line [app.logger.error] writes. *)
Definition log_line (t : task) (error : exn) : string :=
  "Encountered exception in background task " +:+ _name t +:+ ": "
    +:+ str_of_exn error.

(** One round of the [while True] loop of [run_task], for a thread that
    is still running: the call in the [try], the [except Exception]
    and the sleep. *)
Definition round (t : task) (th : thread) : thread :=
  match ended th with
  | Some _ => th
  | None =>
      let (r, w) := _function t (world th) in
      let n := Datatypes.S (invocations th) in
      let caught :=
        match r with
        | Ok _ => Ok (logged th)
        | Raise error =>
            if isinstance error Exception
            then Ok (logged th ++ [log_line t error])
            else Raise error
        end in
      match caught with
      | Raise error =>
          {| world := w; invocations := n; logged := logged th;
             slept := slept th; ended := Some error |}
      | Ok lines =>
          match sleep (_delay t) with
          | Raise error =>
              {| world := w; invocations := n; logged := lines;
                 slept := slept th; ended := Some error |}
          | Ok _ =>
              {| world := w; invocations := n; logged := lines;
                 slept := slept th ++ [_delay t]; ended := None |}
          end
      end
  end.

(** The thread after [n] rounds of the loop. *)
Fixpoint run_task (t : task) (n : nat) (th : thread) : thread :=
  match n with
  | O => th
  | Datatypes.S n' => run_task t n' (round t th)
  end.


End Task.

Arguments task : clear implicits.
Arguments thread : clear implicits.


(** A task whose callback calls [sys.exit] and so raises [SystemExit],
    which is no [Exception]. *)
Definition exiting_task : task nat := {|
  _name := "shutdown";
  _delay := 5;
  _function n := (Raise (PyExc SystemExit "0"), Datatypes.S n)
|}.

End Wsgi.

(** ** puffotter/flask/routes/decorators.py: [api_login_required] *)

Module ApiLogin.
Import Api.





(** For the examples: a request without a Content-Type header, a handler
    behind [login_required] for a client that is not logged in, and a
    handler that looks up an index that is not there. *)
Definition bare_delete : request := {|
  content_type := None;
  is_json := false;
  get_json := JNull;
  method := "DELETE"
|}.



End ApiLogin.

(** ** puffotter/flask/initialize.py: [load_user] and the blueprints of
    [__init_app] *)

Module Init.
Import Auth.

(** [load_user]: [User.query.get(int(user_id))] *)
Definition load_user (db : database) (user_id : string) : res (option User) :=
  id ← Num.int_of_str user_id;
  Ok (users db !! id).

Inductive level : Type := DEBUG | INFO.

Section Blueprints.
(** Blueprints, as the generators make them. *)
Context {Blueprint : Type}.

(** The module-level list [CREATED_BLUEPRINTS], the blueprints registered
    with the application, in order, and the lines of the log. *)
Record app_state : Type := {
  CREATED_BLUEPRINTS : list string;
  registered : list Blueprint;
  app_log : list (level * string)
}.

Definition generator : Type := string -> res Blueprint.

Definition log (lvl : level) (line : string) (st : app_state) : app_state :=
  {| CREATED_BLUEPRINTS := CREATED_BLUEPRINTS st;
     registered := registered st;
     app_log := app_log st ++ [(lvl, line)] |}.

(** One round of the loop over [blueprint_generators].  What a generator
    raises leaves the loop; [app.register_blueprint] is taken to accept
    the blueprint, which it does for a blueprint whose name is not
    registered yet. *)
Definition create_blueprint (entry : generator * string) (st : app_state)
  : res unit * app_state :=
  let (blueprint_generator, blueprint_name) := entry in
  if bool_decide (blueprint_name ∈ CREATED_BLUEPRINTS st) then
    (Ok tt, log DEBUG ("Blueprint " +:+ blueprint_name +:+ " already created") st)
  else
    let st := log INFO ("Creating blueprint " +:+ blueprint_name) st in
    let st := {| CREATED_BLUEPRINTS := CREATED_BLUEPRINTS st ++ [blueprint_name];
                 registered := registered st;
                 app_log := app_log st |} in
    match blueprint_generator blueprint_name with
    | Raise e => (Raise e, st)
    | Ok blueprint =>
        (Ok tt, {| CREATED_BLUEPRINTS := CREATED_BLUEPRINTS st;
                   registered := registered st ++ [blueprint];
                   app_log := app_log st |})
    end.

(** The loop: it stops at the first generator that raises. *)
Fixpoint create_blueprints (blueprint_generators : list (generator * string))
  (st : app_state) : res unit * app_state :=
  match blueprint_generators with
  | [] => (Ok tt, st)
  | entry :: rest =>
      match create_blueprint entry st with
      | (Ok _, st') => create_blueprints rest st'
      | (Raise e, st') => (Raise e, st')
      end
  end.
End Blueprints.

Arguments app_state : clear implicits.
Arguments generator : clear implicits.

(** Blueprints for the examples are their names; the generator of "broken"
    raises. *)
Definition named : generator string := fun name => Ok name.

Definition broken : generator string :=
  fun name => Raise (PyExc RuntimeError "no templates").

Definition fresh_app : app_state string :=
  {| CREATED_BLUEPRINTS := []; registered := []; app_log := [] |}.

(** The line the loop logs for a blueprint it passes over. *)
Definition already_created {Blueprint} (entry : generator Blueprint * string)
  : level * string :=
  (DEBUG, "Blueprint " +:+ snd entry +:+ " already created").

End Init.

(** ** puffotter/flask/wsgi.py: further tasks for the examples *)

Module Tasks.
Import Wsgi.


(** A task with a delay of more than [max_sleep] seconds. *)
Definition patient_task : task nat := {|
  _name := "yearly";
  _delay := 10000000000;
  _function n := (Ok tt, Datatypes.S n)
|}.

(** A task that is defined with a negative delay. *)
Definition hasty_task : task nat := {|
  _name := "poll";
  _delay := -1;
  _function n := (Ok tt, Datatypes.S n)
|}.

End Tasks.

(** ** Further vocabulary for the properties *)

Module Vocabulary.
Import Str.

(** Every character of a string passes a test. *)
Fixpoint all_chars (test : ascii -> bool) (s : string) : bool :=
  match s with
  | EmptyString => true
  | String c s' => test c && all_chars test s'
  end.

(** The characters of a number without exponent: digits, point, signs,
    underscore and blank. *)
Definition numeric_char (c : ascii) : bool :=
  is_decimal c || bool_decide (c ∈ ["."; "+"; "-"; "_"; " "]%char).

Definition numeric (s : string) : bool := all_chars numeric_char s.

(** A string without a blank. *)
Definition no_blank (s : string) : bool :=
  all_chars (fun c => negb (bool_decide (c = " "%char))) s.

(** [k] zeros. *)
Fixpoint zeros (k : nat) : string :=
  match k with
  | O => EmptyString
  | S k' => String "0" (zeros k')
  end.

(** The product [int(float(number) * multiplier)] of the byte parser. *)
Definition scaled (number : string) (multiplier : Z) : res Z :=
  x ← Num.float_of_str number;
  y ← Num.float_of_int multiplier;
  Num.int_of_float (Num.fmul x y).


End Vocabulary.

(** * Properties *)

(** ** Results *)

Lemma bind_Ok {A B} (a : A) (k : A -> res B) : (Ok a ≫= k) = k a.
Proof. reflexivity. Qed.

Lemma bind_Raise {A B} (e : exn) (k : A -> res B) : (Raise e ≫= k) = Raise e.
Proof. reflexivity. Qed.

(** ** Classes *)

(** A class below [UserClass name base] other than the class itself is a
    class below [base]. *)
Lemma issubclass_user (name : string) (base d : pyclass) :
  d <> UserClass name base ->
  issubclass (UserClass name base) d = issubclass base d.
Proof.
  intros Hd. unfold issubclass. apply bool_decide_ext.
  change (mro (UserClass name base)) with (UserClass name base :: mro base).
  rewrite elem_of_cons. split; [by intros [? | ?] | auto].
Qed.

(** ** Strings *)

Module StrFacts.
Import Str.

Lemma append_nil_l (s : string) : "" +:+ s = s.
Proof. reflexivity. Qed.

Lemma append_cons (c : ascii) (a b : string) :
  String c a +:+ b = String c (a +:+ b).
Proof. reflexivity. Qed.

Lemma append_nil_r (s : string) : s +:+ "" = s.
Proof.
  induction s as [|c s IH]; [done |].
  by rewrite append_cons, IH.
Qed.

Lemma append_assoc (a b c : string) : (a +:+ b) +:+ c = a +:+ (b +:+ c).
Proof.
  induction a as [|x a IH]; [done |].
  by rewrite !append_cons, IH.
Qed.

Lemma length_append (a b : string) :
  String.length (a +:+ b) = (String.length a + String.length b)%nat.
Proof.
  induction a as [|c a IH]; [done |].
  rewrite append_cons. simpl. by rewrite IH.
Qed.

Lemma startswith_split (s p : string) :
  startswith s p = true -> s = p +:+ drop (String.length p) s.
Proof.
  revert s; induction p as [|a p IH]; intros s H; simpl in *; [done |].
  destruct s as [|b s]; [done |].
  apply andb_prop in H as [Hab Hp].
  apply bool_decide_eq_true in Hab as ->.
  simpl. rewrite append_cons. f_equal. by apply IH.
Qed.

Lemma drop_nil (n : nat) : drop n "" = "".
Proof. by destruct n. Qed.

Lemma length_pred_drop (p : string) (c : ascii) (s : string) :
  p <> "" -> drop (String.length p - 1) s = drop (String.length p) (String c s).
Proof.
  destruct p as [|a p]; [done |]. intros _. simpl.
  by rewrite Nat.sub_0_r.
Qed.

Lemma replace_go_step (old new : string) (count : Z) (c : ascii) (s : string) :
  replace_go old new 0 count (String c s) =
  if count =? 0 then String c s
  else if startswith (String c s) old
       then new +:+ replace_go old new (String.length old - 1) (count - 1) s
       else String c (replace_go old new 0 count s).
Proof. reflexivity. Qed.

(** An observation [F] of strings that is computed piecewise, [F (a ++ b)]
    from [F a] and [F b], and that does not tell [old] from [new], does not
    tell [s.replace(old, new)] from [s]. *)
Section ReplaceObservation.
Context {M : Type} (F : string -> M) (op : M -> M -> M).
Hypothesis F_app : forall a b, F (a +:+ b) = op (F a) (F b).
Variables old new : string.
Hypothesis old_nonempty : old <> "".
Hypothesis F_old_new : F old = F new.

Lemma replace_go_observe (s : string) :
  forall skip count,
    F (replace_go old new skip count s) = F (drop skip s).
Proof.
  induction s as [|c s IH]; intros skip count.
  - by rewrite drop_nil.
  - destruct skip as [|k]; [| apply IH].
    rewrite replace_go_step. simpl drop.
    destruct (count =? 0); [done |].
    destruct (startswith (String c s) old) eqn:Hpre.
    + rewrite F_app, IH, <- F_old_new, <- F_app.
      rewrite (length_pred_drop old c s old_nonempty).
      by rewrite <- (startswith_split _ _ Hpre).
    + change (String c (replace_go old new 0 count s))
        with (String c "" +:+ replace_go old new 0 count s).
      by rewrite F_app, IH, <- F_app.
Qed.

Lemma replace_observe (s : string) : F (replace s old new) = F s.
Proof.
  pose proof (replace_go_observe s 0 (-1)) as H.
  unfold replace, replace_count.
  by destruct old.
Qed.
End ReplaceObservation.

Lemma last_cons (c : ascii) (s : string) : exists x, last (String c s) = Ok x.
Proof.
  revert c; induction s as [|d s IH]; intros c; [by exists c |].
  destruct (IH d) as [x Hx]. exists x. exact Hx.
Qed.

Lemma last_cons_cons (c d : ascii) (s : string) :
  last (String c (String d s)) = last (String d s).
Proof. reflexivity. Qed.

Lemma last_isdigit_app (a b : string) :
  last_isdigit (a +:+ b) = right_biased (last_isdigit a) (last_isdigit b).
Proof.
  unfold last_isdigit.
  induction a as [|c a IH].
  - rewrite append_nil_l. simpl. by destruct (last b).
  - rewrite append_cons. destruct a as [|c' a].
    + rewrite append_nil_l. destruct b as [|d b]; [done |].
      rewrite last_cons_cons.
      destruct (last_cons d b) as [x ->]. done.
    + rewrite append_cons in *. rewrite !last_cons_cons. exact IH.
Qed.

Lemma has_dot_app (a b : string) : has_dot (a +:+ b) = has_dot a || has_dot b.
Proof.
  induction a as [|c a IH]; [done |].
  rewrite append_cons. simpl. by rewrite IH, orb_assoc.
Qed.

Lemma find_from_dot (s : string) (i : Z) :
  0 <= i ->
  (find_from "." s i =? -1) = negb (has_dot s).
Proof.
  revert i; induction s as [|c s IH]; intros i Hi; simpl; [done |].
  destruct (decide (c = "."%char)) as [-> | Hc].
  - rewrite !bool_decide_true by done. simpl.
    apply Z.eqb_neq. lia.
  - rewrite !bool_decide_false by congruence. simpl.
    apply IH. lia.
Qed.

Lemma find_dot (s : string) : (find s "." =? -1) = negb (has_dot s).
Proof. by apply find_from_dot. Qed.

(** Characters, by enumeration. *)
Ltac by_cases_on_char c :=
  destruct c as [[] [] [] [] [] [] [] []]; vm_compute; try done.

Lemma isdigit_char_lower (c : ascii) : isdigit (char_lower c) = isdigit c.
Proof. by_cases_on_char c. Qed.

Lemma char_lower_idemp (c : ascii) : char_lower (char_lower c) = char_lower c.
Proof. by_cases_on_char c. Qed.

Lemma char_lower_upper_ascii (c : ascii) :
  char_lower (char_upper_ascii c) = char_lower c.
Proof. by_cases_on_char c. Qed.

Lemma char_lower_dot (c : ascii) :
  bool_decide (char_lower c = "."%char) = bool_decide (c = "."%char).
Proof. by_cases_on_char c. Qed.

Lemma lower_idemp (s : string) : lower (lower s) = lower s.
Proof.
  induction s as [|c s IH]; simpl; [done |].
  by rewrite char_lower_idemp, IH.
Qed.

Lemma lower_upper_ascii (s : string) : lower (upper_ascii s) = lower s.
Proof.
  induction s as [|c s IH]; simpl; [done |].
  by rewrite char_lower_upper_ascii, IH.
Qed.

Lemma has_dot_lower (s : string) : has_dot (lower s) = has_dot s.
Proof.
  induction s as [|c s IH]; simpl; [done |].
  by rewrite char_lower_dot, IH.
Qed.

Lemma last_isdigit_lower (s : string) : last_isdigit (lower s) = last_isdigit s.
Proof.
  unfold last_isdigit.
  induction s as [|c s IH]; simpl; [done |].
  destruct s as [|d s]; simpl in *.
  - by rewrite isdigit_char_lower.
  - exact IH.
Qed.

End StrFacts.

(** ** puffotter/units.py: the byte parser *)

Module UnitsFacts.
Import Str Num Units StrFacts.

(** Stripping the unit suffixes changes neither observation. *)
Lemma strip_suffixes_last_isdigit (s : string) :
  last_isdigit (strip_suffixes s) = last_isdigit s.
Proof.
  unfold strip_suffixes, units, strip_unit. cbn [fold_left fst].
  by rewrite !(replace_observe last_isdigit right_biased last_isdigit_app).
Qed.

Lemma strip_suffixes_has_dot (s : string) :
  has_dot (strip_suffixes s) = has_dot s.
Proof.
  unfold strip_suffixes, units, strip_unit. cbn [fold_left fst].
  by rewrite !(replace_observe has_dot orb has_dot_app).
Qed.

Lemma prepared_last_isdigit (s : string) :
  last_isdigit (strip_suffixes (lower s)) = last_isdigit s.
Proof. by rewrite strip_suffixes_last_isdigit, last_isdigit_lower. Qed.

Lemma prepared_has_dot (s : string) :
  has_dot (strip_suffixes (lower s)) = has_dot s.
Proof. by rewrite strip_suffixes_has_dot, has_dot_lower. Qed.

Lemma getitem_unknown (c : ascii) :
  is_unit_letter c = false ->
  getitem units (String c "") = Raise (PyExc KeyError (repr (String c ""))).
Proof.
  destruct c as [[] [] [] [] [] [] [] []]; vm_compute; congruence.
Qed.

Lemma bare_fraction_raises (s : string) :
  bare_fraction s = true ->
  byte_string_to_byte_count s = Raise (PyExc ValueError "").
Proof.
  unfold bare_fraction, byte_string_to_byte_count. intros H.
  pose proof (prepared_last_isdigit s) as Hl.
  pose proof (prepared_has_dot s) as Hd.
  unfold last_isdigit in Hl.
  destruct (last s) as [c|]; [| done].
  apply andb_prop in H as [Hc Hdot].
  destruct (last (strip_suffixes (lower s))) as [c'|]; [| done].
  rewrite bind_Ok. injection Hl as Hl. rewrite Hl, Hc.
  by rewrite find_dot, Hd, Hdot.
Qed.

Lemma unknown_unit_raises (s : string) :
  unknown_unit s = true ->
  byte_string_to_byte_count s = Raise (PyExc ValueError "").
Proof.
  unfold unknown_unit, byte_string_to_byte_count. intros H.
  destruct (last (strip_suffixes (lower s))) as [c|]; [| done].
  apply andb_prop in H as [Hc Hu].
  apply negb_true_iff in Hc, Hu.
  rewrite bind_Ok, Hc, (getitem_unknown c Hu). reflexivity.
Qed.

(** *** Bare integers *)

Lemma decimal_char (c : ascii) :
  is_decimal c = true ->
  char_lower c = c /\ isdigit c = true /\ isspace c = false /\
  c <> "."%char /\ (forall s, split_sign (String c s) = (false, String c s)).
Proof.
  destruct c as [[] [] [] [] [] [] [] []]; vm_compute; intros H;
    try discriminate H; (repeat split; congruence).
Qed.

Lemma lower_decimal (s : string) : all_decimal s = true -> lower s = s.
Proof.
  induction s as [|c s IH]; simpl; [done |].
  intros [Hc Hs]%andb_prop.
  destruct (decimal_char c Hc) as (-> & _). by rewrite IH.
Qed.

Lemma has_dot_decimal (s : string) : all_decimal s = true -> has_dot s = false.
Proof.
  induction s as [|c s IH]; simpl; [done |].
  intros [Hc Hs]%andb_prop.
  destruct (decimal_char c Hc) as (_ & _ & _ & Hdot & _).
  by rewrite bool_decide_false, IH.
Qed.

Lemma last_decimal (s : string) :
  all_decimal s = true -> s <> "" ->
  exists c, last s = Ok c /\ is_decimal c = true.
Proof.
  induction s as [|c s IH]; [done |].
  intros [Hc Hs]%andb_prop _. destruct s as [|d s].
  - by exists c.
  - rewrite last_cons_cons. by apply IH.
Qed.

Lemma rstrip_decimal (s : string) : all_decimal s = true -> rstrip s = s.
Proof.
  induction s as [|c s IH]; simpl; [done |].
  intros [Hc Hs]%andb_prop. rewrite (IH Hs).
  destruct (decimal_char c Hc) as (_ & _ & -> & _).
  by destruct s.
Qed.

Lemma lstrip_decimal (s : string) : all_decimal s = true -> lstrip s = s.
Proof.
  destruct s as [|c s]; simpl; [done |].
  intros [Hc Hs]%andb_prop.
  by destruct (decimal_char c Hc) as (_ & _ & -> & _).
Qed.

Lemma scan_digits_decimal (s : string) (acc digits : Z) :
  all_decimal s = true ->
  scan_digits s AfterDigit acc digits
  = Some (decimal_value_from s acc, digits + Z.of_nat (String.length s), "").
Proof.
  revert acc digits; induction s as [|c s IH]; intros acc digits; simpl.
  - intros _. by rewrite Z.add_0_r.
  - intros [Hc Hs]%andb_prop. rewrite Hc, (IH _ _ Hs).
    do 3 f_equal. lia.
Qed.

(** [int] on a non-empty string of decimal digits: the digits are
    counted against the limit, and converted when they are within it. *)
Lemma int_of_str_digits (s : string) :
  all_decimal s = true -> s <> "" ->
  int_of_str s =
  if int_max_str_digits <? Z.of_nat (String.length s)
  then exceeds_limit (Z.of_nat (String.length s))
  else Ok (decimal_value s).
Proof.
  intros Hs Hne. unfold int_of_str, strip.
  rewrite (rstrip_decimal s Hs), (lstrip_decimal s Hs).
  destruct s as [|c s]; [done |].
  simpl in Hs. apply andb_prop in Hs as [Hc Hs].
  destruct (decimal_char c Hc) as (_ & _ & _ & _ & ->).
  cbn [scan_digits]. rewrite Hc, (scan_digits_decimal s _ _ Hs).
  change (String.length (String c s)) with (Datatypes.S (String.length s)).
  replace (0 + 1 + Z.of_nat (String.length s))
    with (Z.of_nat (Datatypes.S (String.length s))) by lia.
  destruct (int_max_str_digits <? _); [done |].
  assert ((Z.of_nat (Datatypes.S (String.length s)) =? 0) = false) as ->
    by (apply Z.eqb_neq; lia).
  by rewrite bool_decide_true.
Qed.

Lemma int_of_str_decimal (s : string) :
  all_decimal s = true -> s <> "" ->
  Z.of_nat (String.length s) <= int_max_str_digits ->
  int_of_str s = Ok (decimal_value s).
Proof.
  intros Hs Hne Hlen. rewrite (int_of_str_digits s Hs Hne).
  by rewrite (proj2 (Z.ltb_ge _ _) Hlen).
Qed.

Lemma replace_go_decimal (a : ascii) (o new : string) (count : Z) (s : string) :
  all_decimal s = true ->
  is_decimal a = false ->
  replace_go (String a o) new 0 count s = s.
Proof.
  intros Hs Ha. induction s as [|c s IH]; [done |].
  simpl in Hs. apply andb_prop in Hs as [Hc Hs].
  rewrite replace_go_step. destruct (count =? 0); [done |].
  assert (startswith (String c s) (String a o) = false) as ->.
  { simpl. rewrite bool_decide_false; [done |]. congruence. }
  by rewrite IH.
Qed.

Lemma strip_suffixes_decimal (s : string) :
  all_decimal s = true -> strip_suffixes s = s.
Proof.
  intros Hs. unfold strip_suffixes, units, strip_unit. cbn [fold_left fst].
  rewrite !append_cons, !append_nil_l.
  unfold replace, replace_count.
  rewrite !(replace_go_decimal _ _ _ _ s) by (assumption || reflexivity).
  reflexivity.
Qed.

(** On a non-empty string of decimal digits the parser is [int]. *)
Lemma bare_digits (s : string) :
  all_decimal s = true -> s <> "" ->
  byte_string_to_byte_count s = int_of_str s.
Proof.
  intros Hs Hne. unfold byte_string_to_byte_count.
  rewrite (lower_decimal s Hs), (strip_suffixes_decimal s Hs).
  destruct (last_decimal s Hs Hne) as (c & -> & Hc).
  destruct (decimal_char c Hc) as (_ & Hd & _).
  by rewrite bind_Ok, Hd, find_dot, (has_dot_decimal s Hs).
Qed.

Lemma bare_integer (s : string) :
  all_decimal s = true -> s <> "" ->
  Z.of_nat (String.length s) <= int_max_str_digits ->
  byte_string_to_byte_count s = Ok (decimal_value s).
Proof.
  intros Hs Hne Hlen. rewrite (bare_digits s Hs Hne).
  by apply int_of_str_decimal.
Qed.

Lemma long_integer (s : string) :
  all_decimal s = true ->
  int_max_str_digits < Z.of_nat (String.length s) ->
  byte_string_to_byte_count s
  = exceeds_limit (Z.of_nat (String.length s)).
Proof.
  intros Hs Hlen.
  assert (s <> "") as Hne by (intros ->; simpl in Hlen; unfold int_max_str_digits in Hlen; lia).
  rewrite (bare_digits s Hs Hne), (int_of_str_digits s Hs Hne).
  by rewrite (proj2 (Z.ltb_lt _ _) Hlen).
Qed.

(** *** Which errors the parser can raise *)

Lemma int_of_str_error (s : string) (e : exn) :
  int_of_str s = Raise e -> type_of e = ValueError.
Proof.
  unfold int_of_str, invalid_literal, exceeds_limit.
  destruct (split_sign (strip s)) as [neg body].
  destruct (scan_digits body AtStart 0 0) as [[[n digits] rest]|];
    [| by intros [= <-]].
  destruct (int_max_str_digits <? digits); [by intros [= <-] |].
  destruct (_ || _); [by intros [= <-] | done].
Qed.

Lemma float_of_str_error (s : string) (e : exn) :
  float_of_str s = Raise e -> type_of e = ValueError.
Proof.
  unfold float_of_str, could_not_convert.
  repeat case_match; intros [= <-]; done.
Qed.

Lemma float_of_int_error (n : Z) (e : exn) :
  float_of_int n = Raise e -> type_of e = OverflowError.
Proof.
  unfold float_of_int, int_too_large. case_match; intros [= <-]; done.
Qed.

Lemma int_of_float_error (x : float) (e : exn) :
  int_of_float x = Raise e ->
  type_of e = OverflowError \/ type_of e = ValueError.
Proof.
  unfold int_of_float, infinity_to_integer, nan_to_integer.
  destruct x; intros [= <-]; auto.
Qed.

Lemma getitem_error (d : list (string * Z)) (key : string) (e : exn) :
  getitem d key = Raise e -> e = PyExc KeyError (repr key).
Proof.
  induction d as [|[k v] d IH]; simpl; [congruence |].
  case_bool_decide; [congruence | exact IH].
Qed.

Lemma last_nonempty (s : string) : s <> "" -> exists c, last s = Ok c.
Proof. destruct s as [|c s]; [done |]. intros _. apply last_cons. Qed.

Lemma prepared_nonempty (s : string) :
  s <> "" -> exists c, last (strip_suffixes (lower s)) = Ok c.
Proof.
  intros [c Hc]%last_nonempty.
  pose proof (prepared_last_isdigit s) as H.
  unfold last_isdigit in H. rewrite Hc in H.
  destruct (last (strip_suffixes (lower s))) as [c'|]; [by exists c' | done].
Qed.

Lemma nonempty_no_IndexError (s : string) :
  s <> "" -> raised (byte_string_to_byte_count s) <> Some IndexError.
Proof.
  intros [c Hc]%prepared_nonempty.
  unfold byte_string_to_byte_count. rewrite Hc, bind_Ok.
  destruct (isdigit c).
  - destruct (negb _); [done |].
    destruct (int_of_str _) as [n|e] eqn:E; [done |].
    cbn [raised]. by rewrite (int_of_str_error _ _ E).
  - destruct (getitem units _) as [m|e] eqn:Eg.
    2:{ by rewrite bind_Raise, (getitem_error _ _ _ Eg). }
    rewrite bind_Ok.
    destruct (float_of_str _) as [x|e] eqn:Ex.
    2:{ rewrite bind_Raise.
        destruct e as [cls msg|]; [| done].
        apply float_of_str_error in Ex. simpl in Ex. by subst cls. }
    rewrite bind_Ok.
    destruct (float_of_int m) as [y|e] eqn:Ey.
    2:{ rewrite bind_Raise.
        destruct e as [cls msg|]; [| done].
        apply float_of_int_error in Ey. simpl in Ey. by subst cls. }
    rewrite bind_Ok.
    destruct (int_of_float _) as [n|e] eqn:En; [done |].
    destruct e as [cls msg|]; [| by destruct (int_of_float_error _ _ En)].
    destruct (int_of_float_error _ _ En) as [Hcls | Hcls];
      simpl in Hcls; by subst cls.
Qed.

(** *** The claims about [byte_string_to_byte_count] *)

(** C4: [byte_string_to_byte_count] is exact on the documented examples,
    1000 for "1K", "1KB" and "1Kb/s", 500000 for "500K", 2500000 for
    "2.5M", 10000000000 for "10GB" and 30000 for "30kb/s", and it does not
    tell capitals from small letters: capitalising the input, or putting it
    in lower case, never changes the result. *)
Theorem byte_string_to_byte_count_examples :
  byte_string_to_byte_count "1K" = Ok 1000 /\
  byte_string_to_byte_count "1KB" = Ok 1000 /\
  byte_string_to_byte_count "1Kb/s" = Ok 1000 /\
  byte_string_to_byte_count "500K" = Ok 500000 /\
  byte_string_to_byte_count "2.5M" = Ok 2500000 /\
  byte_string_to_byte_count "10GB" = Ok 10000000000 /\
  byte_string_to_byte_count "30kb/s" = Ok 30000 /\
  (forall s, byte_string_to_byte_count (upper_ascii s)
             = byte_string_to_byte_count s) /\
  (forall s, byte_string_to_byte_count (lower s)
             = byte_string_to_byte_count s).
Proof.
  do 7 (split; [vm_compute; reflexivity |]).
  split; intros s; unfold byte_string_to_byte_count.
  - by rewrite lower_upper_ascii.
  - by rewrite lower_idemp.
Qed.

(** C5, as the code has it: every input that is a bare number with a
    decimal point, or whose last character after the suffixes are stripped
    is neither a digit nor one of k, m, g, t, p, e, raises [ValueError];
    so "12.3" and "abc" raise.  Other inputs raise [ValueError] as well,
    from [int] and [float]: "k", "abc1", and a string of more decimal
    digits than [int] converts.  A non-empty string of decimal digits
    within that limit yields the integer it denotes: "123" gives 123. *)
Theorem invalid_format_raises (s : string) :
  (invalid_format s = true ->
   byte_string_to_byte_count s = Raise (PyExc ValueError "")) /\
  (all_decimal s = true -> s <> "" ->
   Z.of_nat (String.length s) <= int_max_str_digits ->
   byte_string_to_byte_count s = Ok (decimal_value s)) /\
  (all_decimal s = true ->
   int_max_str_digits < Z.of_nat (String.length s) ->
   raised (byte_string_to_byte_count s) = Some ValueError) /\
  byte_string_to_byte_count "12.3" = Raise (PyExc ValueError "") /\
  byte_string_to_byte_count "abc" = Raise (PyExc ValueError "") /\
  raised (byte_string_to_byte_count "k") = Some ValueError /\
  raised (byte_string_to_byte_count "abc1") = Some ValueError /\
  byte_string_to_byte_count "123" = Ok 123.
Proof.
  split; [| split; [| split; [| by vm_compute]]].
  - unfold invalid_format. intros [H | H]%orb_prop.
    + by apply bare_fraction_raises.
    + by apply unknown_unit_raises.
  - apply bare_integer.
  - intros Hs Hlen. by rewrite (long_integer s Hs Hlen).
Qed.

Lemma invalid_format_raises_witness :
  byte_string_to_byte_count "98.6" = Raise (PyExc ValueError "") /\
  byte_string_to_byte_count "12 apples" = Raise (PyExc ValueError "") /\
  byte_string_to_byte_count "0042" = Ok 42.
Proof.
  split; [| split].
  - apply (proj1 (invalid_format_raises "98.6")). reflexivity.
  - apply (proj1 (invalid_format_raises "12 apples")). reflexivity.
  - apply (proj1 (proj2 (invalid_format_raises "0042")));
      [reflexivity | discriminate | by vm_compute].
Defined.

(** C5 as stated fails: "k" raises [ValueError] although it is not a bare
    number and its last character is the unit letter k; so does "abc1",
    whose last character is a digit and which has no decimal point. *)
Lemma invalid_format_not_exact :
  ~ (forall s, raised (byte_string_to_byte_count s) = Some ValueError
               <-> invalid_format s = true).
Proof.
  intros H. specialize (H "k"). destruct H as [H _].
  specialize (H eq_refl). vm_compute in H. discriminate H.
Qed.

(** C10: the empty string raises [IndexError], from the access to the last
    character, and not the [ValueError] of the other invalid inputs; it is
    the only input that raises [IndexError]. *)
Theorem empty_string_IndexError :
  byte_string_to_byte_count ""
    = Raise (PyExc IndexError "string index out of range") /\
  raised (byte_string_to_byte_count "") <> Some ValueError /\
  (forall s, raised (byte_string_to_byte_count s) = Some IndexError <-> s = "").
Proof.
  split; [reflexivity | split; [by vm_compute |]].
  intros s. split.
  - intros H. destruct (decide (s = "")) as [| Hne]; [done |].
    by destruct (nonempty_no_IndexError s Hne).
  - by intros ->.
Qed.

End UnitsFacts.

(** ** puffotter/units.py: the byte formatter *)

Module FormatFacts.
Import Str Num Units StrFacts.

(** The loop of [human_readable_bytes] stops by itself: started at
    [unit_index], it needs no more rounds than there are units left, and
    it leaves the index inside the unit list. *)
Lemma scale_loop_terminates (fuel : nat) (base : Z) (x : float) (unit_index : Z) :
  -1 <= unit_index < 7 ->
  7 - unit_index <= Z.of_nat fuel ->
  exists r, scale_loop fuel base x unit_index = Some r /\
    forall y i, r = Ok (y, i) -> unit_index < i <= 7.
Proof.
  revert x unit_index.
  induction fuel as [|fuel IH]; intros x unit_index Hi Hfuel; [lia |].
  simpl. destruct (float_of_int base) as [b|e];
    [| eexists; split; [reflexivity | done]].
  destruct (int_of_float (fdiv x b)) as [n|e];
    [| eexists; split; [reflexivity | done]].
  change (Z.of_nat 8 - 1) with 7.
  destruct ((n <? base) || (unit_index + 1 =? 7)%Z) eqn:Hbreak.
  - eexists. split; [reflexivity |]. intros y i [= <- <-]. lia.
  - apply orb_false_elim in Hbreak as [_ Hne]. apply Z.eqb_neq in Hne.
    destruct (IH (fdiv x b) (unit_index + 1)) as (r & -> & Hr); [lia | lia |].
    exists r. split; [done |]. intros y i Hyi.
    specialize (Hr y i Hyi). lia.
Qed.

Lemma list_getitem_unit_names (i : Z) (u : string) :
  list_getitem unit_names i = Ok u -> In u unit_names.
Proof.
  unfold list_getitem.
  destruct (_ && _); [| done].
  destruct (unit_names !! _) as [x|] eqn:Hx; [| done].
  intros [= <-]. apply list_elem_of_In.
  by eapply list_elem_of_lookup_2.
Qed.

Lemma endswith_app (a b suffix : string) :
  (String.length suffix <= String.length b)%nat ->
  endswith (a +:+ b) suffix = endswith b suffix.
Proof.
  intros Hlen. induction a as [|c a IH]; [done |].
  rewrite append_cons. simpl. rewrite IH.
  rewrite bool_decide_false; [done |].
  intros H. apply (f_equal String.length) in H. simpl in H.
  rewrite length_append in H. lia.
Qed.

(** What [human_readable_bytes] returns is always of the form
    [number unit "B"] or [number unit "iB"]. *)
Lemma human_readable_bytes_shape (n : Z) (base_1024 trim_zeroes : bool) (s : string) :
  human_readable_bytes n base_1024 trim_zeroes = Some (Ok s) ->
  exists number unit,
    In unit unit_names /\
    s = number +:+ unit +:+ (if base_1024 then "i" else "") +:+ "B".
Proof.
  unfold human_readable_bytes.
  destruct (float_of_int n) as [x|]; [| done].
  destruct (scale_loop 8 _ x (-1)) as [[[y i]|]|]; [| done | done].
  destruct (if trim_zeroes then trim (format_3f y) else Ok (format_3f y))
    as [number|]; [| done].
  rewrite bind_Ok.
  destruct (list_getitem unit_names i) as [unit|] eqn:Hu; [| done].
  rewrite bind_Ok. intros [= <-].
  exists number, unit. split; [| done].
  by eapply list_getitem_unit_names.
Qed.

Lemma human_readable_bytes_terminates (n : Z) (base_1024 trim_zeroes : bool) :
  human_readable_bytes n base_1024 trim_zeroes <> None.
Proof.
  unfold human_readable_bytes.
  destruct (float_of_int n) as [x|]; [| done].
  destruct (scale_loop_terminates 8 (if base_1024 then 1024 else 1000) x (-1))
    as (r & -> & _); [lia | lia |].
  by destruct r as [[y i]|].
Qed.

(** C1, as the code has it: [human_readable_bytes(1000000)] is "1MB" (the
    "B" is always appended) and [human_readable_bytes(1048576,
    base_1024=True)] is "1MiB"; the function always returns or raises;
    and every string it returns is a number, a unit letter and "B", with
    "i" before the "B" exactly when [base_1024] is set. *)
Theorem human_readable_bytes_examples :
  human_readable_bytes 1000000 false true = Some (Ok "1MB") /\
  human_readable_bytes 1048576 true true = Some (Ok "1MiB") /\
  human_readable_bytes 1024 true false = Some (Ok "1.000KiB") /\
  forall n base_1024 trim_zeroes,
    human_readable_bytes n base_1024 trim_zeroes <> None /\
    forall s, human_readable_bytes n base_1024 trim_zeroes = Some (Ok s) ->
      (exists number unit,
         In unit unit_names /\
         s = number +:+ unit +:+ (if base_1024 then "i" else "") +:+ "B") /\
      endswith s "iB" = base_1024.
Proof.
  do 3 (split; [by vm_compute |]).
  intros n base_1024 trim_zeroes.
  split; [apply human_readable_bytes_terminates |].
  intros s Hs.
  destruct (human_readable_bytes_shape _ _ _ _ Hs) as (number & unit & Hu & ->).
  split; [by exists number, unit |].
  rewrite endswith_app.
  - simpl in Hu. destruct base_1024;
      repeat (destruct Hu as [<- | Hu]; [by vm_compute |]); done.
  - simpl in Hu. destruct base_1024;
      repeat (destruct Hu as [<- | Hu]; [vm_compute; lia |]); done.
Qed.

Lemma human_readable_bytes_examples_witness :
  endswith "1.5GiB" "iB" = true.
Proof.
  refine (proj2 (proj2 (proj2 (proj2 (proj2 human_readable_bytes_examples))
                          1610612736 true true) "1.5GiB" _)).
  by vm_compute.
Defined.

(** C1 as stated fails: the result for 1000000 is not "1M". *)
Lemma human_readable_bytes_not_1M :
  human_readable_bytes 1000000 false true <> Some (Ok "1M").
Proof. by vm_compute. Qed.

End FormatFacts.

(** ** puffotter/os.py: the directory lister *)

Module OsFacts.
Import Str Os.

Lemma StronglySorted_filter {A} (R : relation A) (f : A -> bool) (l : list A) :
  StronglySorted R l -> StronglySorted R (List.filter f l).
Proof.
  induction 1 as [|x l Hl IH Hx]; simpl; [constructor |].
  destruct (f x); [| exact IH].
  constructor; [exact IH |].
  rewrite List.Forall_forall in *. intros y Hy.
  apply List.filter_In in Hy as [Hy _]. by apply Hx.
Qed.

Lemma Permutation_filter {A} (f : A -> bool) (l1 l2 : list A) :
  l1 ≡ₚ l2 -> List.filter f l1 ≡ₚ List.filter f l2.
Proof.
  induction 1 as [|x l1 l2 _ IH|x y l|l1 l2 l3 _ IH1 _ IH2]; simpl.
  - constructor.
  - destruct (f x); [by constructor | done].
  - destruct (f x), (f y); try done. constructor.
  - by etrans.
Qed.

Section Listdir.
Variable fs : filesystem.
Variable path : string.
Variables no_files no_dirs no_dot : bool.

Let visit := visit fs path no_files no_dirs no_dot.
Let kept := kept fs path no_files no_dirs no_dot.
Let entry (child : string) : string * string := (child, join path child).

Lemma visit_kept (content : list (string * string)) (child : string) :
  visit content child =
  if kept child then content ++ [entry child] else content.
Proof.
  unfold visit, kept, Os.visit, Os.kept, entry.
  destruct (no_files && isfile fs (join path child)); [done |].
  destruct (no_dirs && isdir fs (join path child)); [done |].
  by destruct (no_dot && startswith child ".").
Qed.

(** The loop appends, in order, the entries of the children it keeps. *)
Lemma loop_filter (children : list string) (content : list (string * string)) :
  fold_left visit children content =
  content ++ map entry (List.filter kept children).
Proof.
  revert content. induction children as [|child children IH]; intros content.
  - simpl. by rewrite app_nil_r.
  - simpl. rewrite IH, visit_kept.
    destruct (kept child); [| done].
    by rewrite <- app_assoc.
Qed.

Lemma listdir_content (children : list string) :
  os_listdir fs path = Ok children ->
  listdir fs path no_files no_dirs no_dot =
  Ok (map entry (List.filter kept (sorted children))).
Proof.
  intros H. unfold listdir. rewrite H, bind_Ok.
  f_equal. apply (loop_filter _ []).
Qed.

Lemma names_of_entries (l : list string) : map fst (map entry l) = l.
Proof.
  induction l as [|x l IH]; simpl; [done | by rewrite IH].
Qed.

Lemma in_entries (name full : string) (l : list string) :
  In (name, full) (map entry l) <-> In name l /\ full = join path name.
Proof.
  rewrite in_map_iff. split.
  - intros (child & [= <- <-] & Hin). done.
  - intros [Hin ->]. by exists name.
Qed.

Lemma in_sorted (name : string) (children : list string) :
  In name (sorted children) <-> In name children.
Proof.
  rewrite <- !list_elem_of_In. unfold sorted.
  by rewrite merge_sort_Permutation.
Qed.
End Listdir.

(** C9: when the operating system lists the directory, [listdir] returns
    a list of pairs (name, full path) that is sorted by name; its entries
    are exactly the immediate children that the three switches do not
    exclude, each with the path joined from the input path and the name;
    so with [no_dot] no name starts with ".", with [no_files] no entry is
    a file and with [no_dirs] none is a directory.  When the operating
    system raises, so does [listdir]. *)
Theorem listdir_sorted_filtered
  (fs : filesystem) (path : string) (no_files no_dirs no_dot : bool) :
  (forall children, os_listdir fs path = Ok children ->
     exists content,
       listdir fs path no_files no_dirs no_dot = Ok content /\
       StronglySorted String.le (map fst content) /\
       map fst content ≡ₚ List.filter (kept fs path no_files no_dirs no_dot) children /\
       (forall name full, In (name, full) content <->
          In name children /\ full = join path name /\
          kept fs path no_files no_dirs no_dot name = true) /\
       (no_dot = true -> forall name full,
          In (name, full) content -> startswith name "." = false) /\
       (no_files = true -> forall name full,
          In (name, full) content -> isfile fs full = false) /\
       (no_dirs = true -> forall name full,
          In (name, full) content -> isdir fs full = false)) /\
  (forall e, os_listdir fs path = Raise e ->
     listdir fs path no_files no_dirs no_dot = Raise e).
Proof.
  split.
  2:{ intros e H. unfold listdir. by rewrite H. }
  intros children H. eexists. split; [by apply listdir_content |].
  set (keep := kept fs path no_files no_dirs no_dot).
  assert (forall name full,
            In (name, full) (map (fun c => (c, join path c))
                               (List.filter keep (sorted children))) <->
            In name children /\ full = join path name /\ keep name = true)
    as Hin.
  { intros name full. rewrite in_entries, List.filter_In, in_sorted. tauto. }
  rewrite names_of_entries.
  split; [| split; [| split; [exact Hin |]]].
  - apply StronglySorted_filter, StronglySorted_merge_sort; apply _.
  - apply Permutation_filter, merge_sort_Permutation.
  - repeat split; intros -> name full (_ & -> & Hk)%Hin;
      unfold keep, kept in Hk;
      apply andb_prop in Hk as [[H1 H2]%andb_prop H3];
      apply negb_true_iff in H1, H2, H3; simpl in *; done.
Qed.

Lemma listdir_sorted_filtered_witness :
  listdir example_fs "/srv" false false true
  = Ok [("a.py", "/srv/a.py"); ("data", "/srv/data"); ("notes.txt", "/srv/notes.txt")]
  /\ StronglySorted String.le ["a.py"; "data"; "notes.txt"].
Proof.
  destruct (proj1 (listdir_sorted_filtered example_fs "/srv" false false true)
              _ eq_refl) as (content & Hc & Hs & _).
  vm_compute in Hc. injection Hc as <-. split; [reflexivity | exact Hs].
Defined.

End OsFacts.

(** ** puffotter/flask/routes/decorators.py: the [api] decorator *)

Module ApiFacts.
Import Str Api.

Lemma error_body (reason : string) :
  <["reason" := JStr reason]>
    (<["status" := JStr "error"]> ({[ "status" := JStr "ok" ]} : gmap string json))
  = error_envelope reason.
Proof. unfold error_envelope. by rewrite insert_singleton_eq. Qed.

Section Api.
Context {S : Type}.
Implicit Types (func : handler S) (req : request) (s : S).

(** When the handler is called: the JSON check does not raise, and the
    request needs no JSON body or has one. *)
Lemma api_calls_handler func req s (is_json : bool) :
  body_is_json req = Ok is_json ->
  requires_json req && negb is_json = false ->
  api func req s =
  let (r, s') := func s in
  {| result :=
       match r with
       | Ok data => Ok {| status_code := 200; body := ok_envelope data |}
       | Raise e =>
           if isinstance_any e whitelist
           then except_block e {[ "status" := JStr "ok" ]}
           else Raise e
       end;
     state := s';
     calls := 1 |}.
Proof.
  intros Hjson Hreq. unfold api, try_block. rewrite Hjson, Hreq.
  by destruct (func s) as [[data|e] s'].
Qed.

(** When the handler is not called. *)
Lemma api_skips_handler func req s :
  calls (api func req s) = O ->
  state (api func req s) = s /\
  (forall is_json, body_is_json req = Ok is_json ->
     requires_json req && negb is_json = true).
Proof.
  unfold api, try_block.
  destruct (body_is_json req) as [is_json|e]; [| done].
  destruct (requires_json req && negb is_json) eqn:Hreq.
  - intros _. split; [done |]. by intros ? [= <-].
  - by destruct (func s) as [[data|e] s'].
Qed.

Lemma api_called func req s :
  calls (api func req s) = 1%nat ->
  exists is_json,
    body_is_json req = Ok is_json /\
    requires_json req && negb is_json = false.
Proof.
  unfold api, try_block.
  destruct (body_is_json req) as [is_json|e]; [| done].
  destruct (requires_json req && negb is_json) eqn:Hreq; [done |].
  intros _. by exists is_json.
Qed.

Lemma get_needs_no_json req :
  method req = "GET" -> requires_json req = false.
Proof. unfold requires_json. by intros ->. Qed.

(** X24: whenever the wrapper calls the handler and the handler returns,
    the response is HTTP 200 with the envelope [{"status": "ok",
    "data": value}]; the handler is called whenever the JSON check of
    the wrapper passes, so for every GET that carries a Content-Type
    header. *)
Theorem api_ok_envelope func req s (data : json) (s' : S) :
  func s = (Ok data, s') ->
  let ok := {| result := Ok {| status_code := 200; body := ok_envelope data |};
               state := s'; calls := 1 |} in
  (calls (api func req s) = 1%nat -> api func req s = ok) /\
  (forall is_json, body_is_json req = Ok is_json ->
     requires_json req && negb is_json = false -> api func req s = ok) /\
  (forall ct, content_type req = Some ct -> method req = "GET" ->
     api func req s = ok) /\
  ok_envelope data !! "status" = Some (JStr "ok") /\
  ok_envelope data !! "data" = Some data.
Proof.
  intros Hfunc ok.
  assert (forall is_json, body_is_json req = Ok is_json ->
            requires_json req && negb is_json = false ->
            api func req s = ok) as Hok.
  { intros is_json H1 H2.
    by rewrite (api_calls_handler _ _ _ _ H1 H2), Hfunc. }
  repeat split.
  - intros (is_json & H1 & H2)%api_called. by eapply Hok.
  - exact Hok.
  - intros ct Hct Hget. eapply Hok.
    + unfold body_is_json. by rewrite Hct.
    + by rewrite (get_needs_no_json _ Hget).
Qed.

(** C7: an exception the handler raises is turned into a response
    exactly when it is an instance of [KeyError], [TypeError],
    [ValueError] or [ApiException]: an [ApiException] gives its own
    status code and reason, the other three give 400 and a reason that
    names the class of the exception, both with status "error" and
    without data; every other exception is raised again, unchanged. *)
Theorem api_whitelist func req s (e : exn) (s' : S) :
  calls (api func req s) = 1%nat ->
  func s = (Raise e, s') ->
  (forall reason code, e = ApiExc reason code ->
     result (api func req s)
     = Ok {| status_code := code; body := error_envelope reason |}) /\
  (isinstance_any e [KeyError; TypeError; ValueError] = true ->
   isinstance e ApiException = false ->
     result (api func req s)
     = Ok {| status_code := 400;
             body := error_envelope
                       ("Bad Request: " +:+ class_name (type_of e)) |}) /\
  (isinstance_any e [KeyError; TypeError; ValueError; ApiException] = false ->
     result (api func req s) = Raise e) /\
  (forall reason,
     error_envelope reason !! "status" = Some (JStr "error") /\
     error_envelope reason !! "reason" = Some (JStr reason) /\
     error_envelope reason !! "data" = None).
Proof.
  intros (is_json & H1 & H2)%api_called Hfunc.
  rewrite (api_calls_handler _ _ _ _ H1 H2), Hfunc. simpl result.
  repeat split.
  - intros reason code ->. unfold except_block.
    change (isinstance_any (ApiExc reason code) whitelist) with true.
    change (isinstance (ApiExc reason code) ApiException) with true.
    simpl. by rewrite error_body.
  - intros Hw Hapi. unfold whitelist, isinstance_any in *.
    simpl in Hw |- *.
    rewrite orb_false_r in Hw.
    assert (isinstance e KeyError || (isinstance e TypeError
              || (isinstance e ValueError
                  || (isinstance e ApiException || false))) = true) as ->.
    { rewrite Hapi. simpl. by rewrite orb_false_r. }
    unfold except_block. by rewrite Hapi, error_body.
  - intros Hw. simpl in Hw. by rewrite Hw.
Qed.

(** C3, as the code has it: a POST, PUT or DELETE request that carries
    a Content-Type header and whose body is not a JSON object does not
    reach the handler; the response is HTTP 400 with status "error" and
    the reason "Not in JSON format". *)
Theorem api_requires_json func req s (ct : string) :
  content_type req = Some ct ->
  method req ∈ ["POST"; "PUT"; "DELETE"] ->
  startswith ct "application/json" && is_json req && is_dict (get_json req)
    = false ->
  api func req s =
  {| result := Ok {| status_code := 400;
                     body := error_envelope "Not in JSON format" |};
     state := s;
     calls := 0 |}.
Proof.
  intros Hct Hmethod Hbody. unfold api, try_block, body_is_json.
  rewrite Hct, Hbody. unfold requires_json.
  rewrite bool_decide_true by done. simpl.
  unfold except_block. simpl. by rewrite error_body.
Qed.
End Api.

Lemma api_ok_envelope_witness :
  api counting_handler get_plain 4%nat
  = {| result := Ok {| status_code := 200; body := ok_envelope (JNum 5) |};
       state := 5%nat; calls := 1 |}.
Proof.
  refine (proj1 (api_ok_envelope counting_handler get_plain 4%nat
                   (JNum 5) 5%nat eq_refl) _).
  reflexivity.
Defined.

Lemma api_whitelist_witness :
  result (api (fun s : nat => (Raise (PyExc KeyError "name"), s)) post_json 0%nat)
  = Ok {| status_code := 400;
          body := error_envelope "Bad Request: KeyError" |}.
Proof.
  refine (proj1 (proj2 (api_whitelist
                          (fun s : nat => (Raise (PyExc KeyError "name"), s))
                          post_json 0%nat (PyExc KeyError "name") 0%nat _ _))
            _ _); reflexivity.
Defined.

Lemma api_requires_json_witness :
  api counting_handler post_text 0%nat
  = {| result := Ok {| status_code := 400;
                       body := error_envelope "Not in JSON format" |};
       state := 0%nat; calls := 0 |}.
Proof.
  apply (api_requires_json counting_handler post_text 0%nat "text/plain");
    [reflexivity | | reflexivity].
  apply list_elem_of_In. simpl. tauto.
Defined.

(** C8, where the code fails it: a GET without a Content-Type header, as
    clients send it.  [request.content_type] is [None] and
    [request.content_type.startswith] raises [AttributeError] inside the
    [try]; the [except] clause does not catch it, so the wrapper raises:
    the handler is not called, whatever it would return, and there is no
    response 200 with the envelope. *)
Theorem api_get_without_content_type {S : Type} (func : handler S) (s : S) :
  method bare_get = "GET" /\
  content_type bare_get = None /\
  api func bare_get s =
  {| result := Raise (PyExc AttributeError
                        "'NoneType' object has no attribute 'startswith'");
     state := s;
     calls := 0 |}.
Proof. by repeat split. Qed.

(** C3 as stated fails: a PATCH request is not a GET and its body is not
    a JSON object, yet the wrapper calls the handler and answers 200. *)
Lemma api_patch_not_rejected :
  ~ (forall (func : handler nat) (req : request) (s : nat),
       method req <> "GET" -> is_dict (get_json req) = false ->
       rejected (api func req s)).
Proof.
  intros H.
  destruct (H counting_handler patch_text 0%nat) as [Hcalls _];
    [discriminate | reflexivity |].
  vm_compute in Hcalls. discriminate Hcalls.
Qed.

End ApiFacts.

(** ** puffotter/flask/initialize.py: the request loader *)

Module AuthFacts.
Import Str Auth.

Section Loader.
Variable env : environment.
Implicit Types (request : request) (db : database).

Lemma load_no_header request db :
  headers request !! "Authorization" = None ->
  load_user_from_request env request db = (Ok None, db).
Proof. intros H. unfold load_user_from_request. by rewrite H. Qed.

Lemma load_bad_base64 request db (authorization : string) (e : exn) :
  headers request !! "Authorization" = Some authorization ->
  b64decode env (encode_utf8 env (replace_count authorization "Basic " "" 1)) = Raise e ->
  isinstance_any e [TypeError; binascii_Error] = true ->
  load_user_from_request env request db = (Ok None, db).
Proof.
  intros Hh Hb He. unfold load_user_from_request, decode_api_key.
  by rewrite Hh, Hb, bind_Raise, He.
Qed.

Lemma load_unknown_key request db (authorization api_key : string) :
  headers request !! "Authorization" = Some authorization ->
  decode_api_key env (replace_count authorization "Basic " "" 1) = Ok api_key ->
  api_keys db !! split_first ":" api_key = None ->
  load_user_from_request env request db = (Ok None, db).
Proof.
  intros Hh Hd Hk. unfold load_user_from_request.
  by rewrite Hh, Hd, Hk.
Qed.

Lemma load_unverified request db (authorization api_key : string) (k : ApiKey) :
  headers request !! "Authorization" = Some authorization ->
  decode_api_key env (replace_count authorization "Basic " "" 1) = Ok api_key ->
  api_keys db !! split_first ":" api_key = Some k ->
  verify_key env k api_key = false ->
  load_user_from_request env request db = (Ok None, db).
Proof.
  intros Hh Hd Hk Hv. unfold load_user_from_request.
  by rewrite Hh, Hd, Hk, Hv.
Qed.

Lemma load_expired request db (authorization api_key : string) (k : ApiKey) :
  headers request !! "Authorization" = Some authorization ->
  decode_api_key env (replace_count authorization "Basic " "" 1) = Ok api_key ->
  api_keys db !! split_first ":" api_key = Some k ->
  verify_key env k api_key = true ->
  has_expired env k = true ->
  load_user_from_request env request db =
  (Ok None, session_commit (session_delete (split_first ":" api_key) db)).
Proof.
  intros Hh Hd Hk Hv Hx. unfold load_user_from_request.
  by rewrite Hh, Hd, Hk, Hv, Hx.
Qed.

Lemma commit_delete (id : string) db :
  let db' := session_commit (session_delete id db) in
  api_keys db' !! id = None /\
  api_keys db' = delete id (foldr delete (api_keys db) (deleted db)) /\
  users db' = users db /\
  deleted db' = [].
Proof. simpl. by rewrite lookup_delete_eq. Qed.

(** X23: the loader answers [None], and raises nothing, when the request
    has no Authorization header, when the decoding of the header value
    raises a [TypeError] or a [binascii.Error], when no API key is stored
    under the key id, when the stored key does not verify, and when it has
    expired; in the last case the stored key is gone from the table of API
    keys when the loader returns. *)
Theorem load_user_anonymous request db :
  (headers request !! "Authorization" = None ->
   load_user_from_request env request db = (Ok None, db)) /\
  (forall authorization e,
     headers request !! "Authorization" = Some authorization ->
     b64decode env (encode_utf8 env (replace_count authorization "Basic " "" 1))
       = Raise e ->
     isinstance_any e [TypeError; binascii_Error] = true ->
     load_user_from_request env request db = (Ok None, db)) /\
  (forall authorization api_key,
     headers request !! "Authorization" = Some authorization ->
     decode_api_key env (replace_count authorization "Basic " "" 1)
       = Ok api_key ->
     let id := split_first ":" api_key in
     (api_keys db !! id = None ->
      load_user_from_request env request db = (Ok None, db)) /\
     (forall k, api_keys db !! id = Some k ->
        verify_key env k api_key = false ->
        load_user_from_request env request db = (Ok None, db)) /\
     (forall k, api_keys db !! id = Some k ->
        verify_key env k api_key = true ->
        has_expired env k = true ->
        exists db',
          load_user_from_request env request db = (Ok None, db') /\
          api_keys db' !! id = None /\
          api_keys db' = delete id (foldr delete (api_keys db) (deleted db)) /\
          users db' = users db)).
Proof.
  split; [apply load_no_header |].
  split; [intros ? ?; apply load_bad_base64 |].
  intros authorization api_key Hh Hd id.
  split; [by eapply load_unknown_key |].
  split; [intros k; by eapply load_unverified |].
  intros k Hk Hv Hx. eexists. split; [by eapply load_expired |].
  destruct (commit_delete id db) as (H1 & H2 & H3 & _). done.
Qed.
End Loader.

Lemma load_user_anonymous_witness :
  load_user_from_request example_env (request_with "Basic MjpvbGQ=") example_db
    = (Ok None,
       {| api_keys := delete "2" (api_keys example_db);
          users := users example_db; deleted := [] |}) /\
  load_user_from_request example_env (request_with "Basic abc") example_db
    = (Ok None, example_db) /\
  load_user_from_request example_env {| headers := ∅ |} example_db
    = (Ok None, example_db).
Proof.
  split; [| split].
  - destruct (proj2 (proj2 (proj2 (proj2
                (load_user_anonymous example_env
                   (request_with "Basic MjpvbGQ=") example_db))
                "Basic MjpvbGQ=" "2:old" eq_refl eq_refl)))
      with (k := {| key_user_id := 7; key_hash := "old"; creation_time := 3 |})
      as (db' & Hload & _ & Hkeys & Husers); [reflexivity .. |].
    rewrite Hload. f_equal.
    destruct db' as [keys us del]. simpl in *. subst.
    vm_compute in Hload. by injection Hload as <-.
  - apply (proj1 (proj2 (load_user_anonymous example_env
                           (request_with "Basic abc") example_db))
             "Basic abc" (PyExc binascii_Error "Incorrect padding"));
      reflexivity.
  - apply (proj1 (load_user_anonymous example_env {| headers := ∅ |} example_db)).
    reflexivity.
Defined.

(** C2, where the code fails it: the header value "/w==" is base64 for the
    one byte 0xFF, which is no UTF-8.  [decode] raises
    [UnicodeDecodeError], a [ValueError] that is neither a [TypeError] nor
    a [binascii.Error], so the [except] clause does not catch it: the
    loader raises instead of answering [None], whatever the database and
    the methods of the keys. *)
Theorem load_user_invalid_utf8 (verify_key : ApiKey -> string -> bool)
  (has_expired : ApiKey -> bool) (db : database) :
  let env := python_env verify_key has_expired in
  let error :=
    PyExc UnicodeDecodeError
      "'utf-8' codec can't decode byte 0xff in position 0: invalid start byte" in
  b64decode env (encode_utf8 env "/w==") = Ok (String (chr 255) "") /\
  decode_utf8 env (String (chr 255) "") = Raise error /\
  isinstance_any error [TypeError; binascii_Error] = false /\
  load_user_from_request env (request_with "Basic /w==") db = (Raise error, db) /\
  load_user_from_request env (request_with "/w==") db = (Raise error, db).
Proof.
  intros env error. by repeat split.
Qed.

End AuthFacts.

(** ** puffotter/flask/wsgi.py: the background tasks *)

Module WsgiFacts.
Import Wsgi.

(** The delays [time.sleep] takes. *)
Lemma sleep_ok (d : Z) : 0 <= d <= max_sleep <-> sleep d = Ok tt.
Proof.
  unfold sleep, max_sleep.
  change ((2 ^ 63 - 1) / 1000000000) with 9223372036.
  change (2 ^ 63) with 9223372036854775808.
  destruct (_ || _) eqn:Hrange.
  - split; [| done]. intros Hd.
    apply orb_prop in Hrange as [H | H]; apply Z.ltb_lt in H; lia.
  - apply orb_false_elim in Hrange as [H1 H2].
    apply Z.ltb_ge in H1, H2.
    destruct (d <? 0) eqn:Hneg.
    + apply Z.ltb_lt in Hneg. split; [lia | done].
    + apply Z.ltb_ge in Hneg. split; [done | lia].
Qed.

Section Task.
Context {W : Type}.
Variable t : task W.
Implicit Types (th : thread W) (n : nat).

Lemma run_task_succ n th :
  run_task t (Datatypes.S n) th = round t (run_task t n th).
Proof.
  revert th. induction n as [|n IH]; intros th; [done |].
  change (run_task t (Datatypes.S (Datatypes.S n)) th)
    with (run_task t (Datatypes.S n) (round t th)).
  by rewrite IH.
Qed.



End Task.




End WsgiFacts.

(** ** puffotter/units.py: further properties of the byte parser *)

Module ParserFacts.
Import Str Num Units StrFacts UnitsFacts Vocabulary.

Lemma lower_app (a b : string) : lower (a +:+ b) = lower a +:+ lower b.
Proof.
  induction a as [|c a IH]; [done |].
  rewrite append_cons. simpl. by rewrite IH, append_cons.
Qed.

Lemma all_chars_impl (P Q : ascii -> bool) (s : string) :
  (forall c, P c = true -> Q c = true) ->
  all_chars P s = true -> all_chars Q s = true.
Proof.
  intros HPQ. induction s as [|c s IH]; simpl; [done |].
  intros [Hc Hs]%andb_prop. by rewrite (HPQ c Hc), IH.
Qed.

(** A numeric character is no letter: [lower] keeps it and no unit suffix
    starts with it. *)
Lemma numeric_char_plain (c : ascii) :
  numeric_char c = true ->
  char_lower c = c /\
  Forall (fun a => c <> a) ["k"; "m"; "g"; "t"; "p"; "e"]%char.
Proof.
  destruct c as [[] [] [] [] [] [] [] []]; vm_compute; intros H;
    try discriminate H; (split; [reflexivity | repeat constructor; congruence]).
Qed.

Lemma lower_numeric (p : string) : numeric p = true -> lower p = p.
Proof.
  induction p as [|c p IH]; simpl; [done |].
  intros [Hc Hp]%andb_prop.
  destruct (numeric_char_plain c Hc) as [-> _]. by rewrite IH.
Qed.

Lemma replace_go_exhausted (old new : string) (s : string) :
  replace_go old new 0 0 s = s.
Proof. by destruct s. Qed.

(** A replacement passes over a prefix in which the first character of
    [old] does not occur. *)
Lemma replace_go_skip_prefix (a : ascii) (o new : string) (count : Z)
  (p rest : string) :
  all_chars (fun c => negb (bool_decide (c = a))) p = true ->
  replace_go (String a o) new 0 count (p +:+ rest)
  = p +:+ replace_go (String a o) new 0 count rest.
Proof.
  induction p as [|c p IH]; [done |].
  intros H. simpl in H. apply andb_prop in H as [Hc Hp].
  apply negb_true_iff, bool_decide_eq_false in Hc.
  rewrite !append_cons, replace_go_step.
  destruct (count =? 0) eqn:Hcount.
  - apply Z.eqb_eq in Hcount as ->. by rewrite replace_go_exhausted.
  - assert (startswith (String c (p +:+ rest)) (String a o) = false) as ->.
    { simpl. rewrite bool_decide_false; [done | congruence]. }
    by rewrite IH.
Qed.

Lemma numeric_avoids (a : ascii) (p : string) :
  a ∈ ["k"; "m"; "g"; "t"; "p"; "e"]%char ->
  numeric p = true ->
  all_chars (fun c => negb (bool_decide (c = a))) p = true.
Proof.
  intros Ha. apply all_chars_impl. intros c Hc.
  destruct (numeric_char_plain c Hc) as [_ Hall].
  rewrite Forall_forall in Hall.
  apply negb_true_iff, bool_decide_eq_false. by apply Hall.
Qed.

(** The suffixes are stripped behind a numeric prefix as if it were not
    there. *)
Lemma strip_suffixes_numeric (p rest : string) :
  numeric p = true ->
  strip_suffixes (p +:+ rest) = p +:+ strip_suffixes rest.
Proof.
  intros Hp. unfold strip_suffixes, units, strip_unit. cbn [fold_left fst].
  rewrite !append_cons, !append_nil_l.
  unfold replace, replace_count.
  rewrite !(replace_go_skip_prefix _ _ _ _ p)
    by (apply numeric_avoids; [set_solver | exact Hp]).
  reflexivity.
Qed.

Lemma last_snoc (p : string) (c : ascii) : last (p +:+ String c "") = Ok c.
Proof.
  induction p as [|d p IH]; [done |].
  rewrite append_cons. destruct p as [|d' p]; [done |].
  rewrite append_cons in *. by rewrite last_cons_cons.
Qed.

Lemma but_last_snoc (p : string) (c : ascii) : but_last (p +:+ String c "") = p.
Proof.
  induction p as [|d p IH]; [done |].
  rewrite append_cons. destruct p as [|d' p]; [done |].
  rewrite append_cons in *. simpl in *. by rewrite IH.
Qed.

Lemma last_error (s : string) (e : exn) :
  last s = Raise e -> s = "".
Proof.
  destruct s as [|c s]; [done |].
  by destruct (last_cons c s) as [x ->].
Qed.

Lemma scaled_error (number : string) (multiplier : Z) (e : exn) :
  scaled number multiplier = Raise e ->
  type_of e = ValueError \/ type_of e = OverflowError.
Proof.
  unfold scaled.
  destruct (float_of_str number) as [x|e'] eqn:Ex.
  2:{ rewrite bind_Raise. intros [= <-]. left. by eapply float_of_str_error. }
  rewrite bind_Ok.
  destruct (float_of_int multiplier) as [y|e'] eqn:Ey.
  2:{ rewrite bind_Raise. intros [= <-]. right. by eapply float_of_int_error. }
  rewrite bind_Ok. intros H.
  destruct (int_of_float_error _ _ H); auto.
Qed.

Lemma scaled_not_caught (number : string) (multiplier : Z) :
  try_except (scaled number multiplier) [KeyError]
    (fun _ => Raise (PyExc ValueError ""))
  = scaled number multiplier.
Proof.
  destruct (scaled number multiplier) as [n|e] eqn:E; [done |].
  destruct e as [cls msg | reason code];
    destruct (scaled_error _ _ _ E) as [H | H]; simpl in H;
    try discriminate H; by subst cls.
Qed.

Lemma getitem_units (u : string) (m : Z) :
  In (u, m) units ->
  getitem units u = Ok m /\
  exists c, u = String c "" /\ isdigit c = false /\
    (forall tail, lower tail ∈ [""; "b"; "b/s"] ->
       strip_suffixes (u +:+ lower tail) = u).
Proof.
  intros H. simpl in H.
  repeat (destruct H as [[= <- <-] | H];
          [split; [reflexivity |];
           eexists; split; [reflexivity |]; split; [reflexivity |];
           intros tail Ht;
           repeat (apply elem_of_cons in Ht as [-> | Ht]; [by vm_compute |]);
           by apply elem_of_nil in Ht |]).
  done.
Qed.

(** X1: a number followed by a unit letter, in either case, and then
    nothing, "b" or "b/s", in any case, is worth
    [int(float(number) * multiplier)]: the suffix and the case are
    stripped and nothing else of the input is touched. *)
Theorem number_with_unit (p U tail u : string) (m : Z) :
  numeric p = true ->
  In (u, m) units ->
  lower U = u ->
  lower tail ∈ [""; "b"; "b/s"] ->
  byte_string_to_byte_count (p +:+ U +:+ tail) = scaled p m.
Proof.
  intros Hp Hu HU Htail.
  destruct (getitem_units u m Hu) as (Hget & c & -> & Hc & Hstrip).
  unfold byte_string_to_byte_count.
  rewrite !lower_app, HU, (lower_numeric p Hp).
  rewrite (strip_suffixes_numeric p _ Hp), (Hstrip tail Htail).
  rewrite last_snoc, bind_Ok, Hc, but_last_snoc.
  rewrite Hget, bind_Ok. apply scaled_not_caught.
Qed.

Lemma number_with_unit_witness :
  byte_string_to_byte_count ("-1_500.25 " +:+ "G" +:+ "B/s") = Ok (-1500250000000).
Proof.
  rewrite (number_with_unit "-1_500.25 " "G" "B/s" "g" 1000000000);
    [by vm_compute | reflexivity | simpl; tauto | reflexivity | set_solver].
Defined.

(** X2: a bare number without a decimal point, that is a string of digits,
    signs, underscores and blanks that ends in a digit, is worth what
    [int] makes of it: the parser accepts a sign, blanks in front and
    underscores between digits, and rejects what [int] rejects. *)
Theorem bare_number_is_int (p : string) (c : ascii) :
  numeric p = true ->
  last p = Ok c ->
  is_decimal c = true ->
  has_dot p = false ->
  byte_string_to_byte_count p = int_of_str p.
Proof.
  intros Hp Hlast Hc Hdot. unfold byte_string_to_byte_count.
  rewrite (lower_numeric p Hp).
  assert (strip_suffixes p = p) as ->.
  { rewrite <- (append_nil_r p) at 1.
    rewrite (strip_suffixes_numeric p "" Hp).
    change (strip_suffixes "") with "". by rewrite append_nil_r. }
  rewrite Hlast, bind_Ok.
  destruct (decimal_char c Hc) as (_ & -> & _).
  by rewrite find_dot, Hdot.
Qed.

Lemma bare_number_is_int_witness :
  byte_string_to_byte_count " -1_024" = Ok (-1024) /\
  byte_string_to_byte_count "1__0"
  = Raise (PyExc ValueError "invalid literal for int() with base 10: '1__0'").
Proof.
  split.
  - by rewrite (bare_number_is_int " -1_024" "4").
  - by rewrite (bare_number_is_int "1__0" "0").
Defined.

(** X3: the parser raises nothing but [IndexError], [ValueError] and
    [OverflowError]; the [KeyError] of the unit table never leaves it. *)
Theorem parser_error_classes (s : string) :
  raised (byte_string_to_byte_count s)
  ∈ [None; Some IndexError; Some ValueError; Some OverflowError].
Proof.
  unfold byte_string_to_byte_count.
  destruct (last (strip_suffixes (lower s))) as [c|e] eqn:Hlast.
  2:{ apply last_error in Hlast as Hempty. rewrite Hempty in Hlast.
      injection Hlast as <-. set_solver. }
  rewrite bind_Ok. destruct (isdigit c).
  - destruct (negb _); [set_solver |].
    destruct (int_of_str _) as [n|e] eqn:E; [set_solver |].
    cbn [raised]. rewrite (int_of_str_error _ _ E). set_solver.
  - destruct (getitem units _) as [m|e] eqn:Eg.
    2:{ rewrite bind_Raise, (getitem_error _ _ _ Eg). set_solver. }
    rewrite bind_Ok.
    change (raised (try_except (scaled (but_last (strip_suffixes (lower s))) m)
                      [KeyError] (fun _ => Raise (PyExc ValueError "")))
            ∈ [None; Some IndexError; Some ValueError; Some OverflowError]).
    rewrite scaled_not_caught.
    destruct (scaled _ m) as [n|e] eqn:E; [set_solver |].
    cbn [raised].
    destruct (scaled_error _ _ _ E) as [-> | ->]; set_solver.
Qed.

End ParserFacts.

(** ** puffotter/units.py: further properties of the byte formatter *)

Module TrimFacts.
Import Str Num Units StrFacts FormatFacts ParserFacts Vocabulary.

Lemma drop_trailing_zeroes_zeros (k : nat) : drop_trailing_zeroes (zeros k) = None.
Proof. induction k as [|k IH]; simpl; [done | by rewrite IH]. Qed.

Lemma drop_trailing_zeroes_last (a : string) (c : ascii) (k : nat) :
  c <> "0"%char ->
  drop_trailing_zeroes (a +:+ String c (zeros k)) = Some (a +:+ String c "").
Proof.
  intros Hc. induction a as [|d a IH].
  - rewrite !append_nil_l. simpl.
    by rewrite drop_trailing_zeroes_zeros, bool_decide_false.
  - rewrite !append_cons. simpl. by rewrite IH.
Qed.

Lemma endswith_snoc_dot (a : string) (c : ascii) :
  endswith (a +:+ String c "") "." = bool_decide (c = "."%char).
Proof.
  rewrite endswith_app by (simpl; lia). simpl.
  rewrite orb_false_r. apply bool_decide_ext. split; congruence.
Qed.

(** X4: what the trimming of [human_readable_bytes] does to a string, by
    its last character that is no zero: the zeros behind it go, and so
    does that character when it is the decimal point; everything before it
    stays, so no zero of the integer part is lost.  A string of zeros
    alone, or the empty string, sends the index off the string:
    [IndexError]. *)
Theorem trim_spec (a : string) (c : ascii) (k : nat) :
  (c <> "0"%char ->
   trim (a +:+ String c (zeros k))
   = Ok (if bool_decide (c = "."%char) then a else a +:+ String c "")) /\
  trim (zeros k) = Raise (PyExc IndexError "string index out of range").
Proof.
  split.
  - intros Hc. unfold trim.
    rewrite (drop_trailing_zeroes_last a c k Hc), endswith_snoc_dot.
    case_bool_decide; [by rewrite but_last_snoc | done].
  - unfold trim. by rewrite drop_trailing_zeroes_zeros.
Qed.

Lemma trim_spec_witness :
  trim ("1500" +:+ String "." (zeros 3)) = Ok "1500" /\
  trim ("2.0" +:+ String "5" (zeros 1)) = Ok "2.05".
Proof.
  split.
  - apply (proj1 (trim_spec "1500" "." 3)). discriminate.
  - apply (proj1 (trim_spec "2.0" "5" 1)). discriminate.
Defined.

Lemma drop_trailing_zeroes_dot (s : string) :
  has_dot s = true -> exists r, drop_trailing_zeroes s = Some r.
Proof.
  induction s as [|c s IH]; [done |].
  simpl. destruct (drop_trailing_zeroes s) as [r|] eqn:Hr; [by eexists |].
  intros [Hc | Hs]%orb_prop.
  - apply bool_decide_eq_true in Hc as ->. by eexists.
  - destruct (IH Hs) as [r Hr']. congruence.
Qed.

Lemma format_3f_trims (x : float) : exists r, trim (format_3f x) = Ok r.
Proof.
  assert (forall s, has_dot s = true -> exists r, trim s = Ok r) as Hdot.
  { intros s [r Hr]%drop_trailing_zeroes_dot. unfold trim. rewrite Hr.
    by eexists. }
  destruct x as [s|s| |s m e].
  - destruct s; by eexists.
  - destruct s; by eexists.
  - by eexists.
  - apply Hdot. unfold format_3f.
    rewrite !has_dot_app. simpl. by rewrite !orb_true_r.
Qed.

Lemma scale_loop_error (fuel : nat) (base : Z) (x : float) (i : Z) (e : exn) :
  scale_loop fuel base x i = Some (Raise e) ->
  type_of e = OverflowError \/ type_of e = ValueError.
Proof.
  revert x i. induction fuel as [|fuel IH]; intros x i; [done |].
  simpl. destruct (float_of_int base) as [b|e'] eqn:Eb.
  2:{ intros [= <-]. left. eapply UnitsFacts.float_of_int_error, Eb. }
  destruct (int_of_float (fdiv x b)) as [n|e'] eqn:En.
  2:{ intros [= <-]. eapply UnitsFacts.int_of_float_error, En. }
  destruct (_ || _); [done | apply IH].
Qed.

Lemma list_getitem_in_range (i : Z) :
  0 <= i <= 7 -> exists u, list_getitem unit_names i = Ok u.
Proof.
  intros Hi.
  assert (i = 0 \/ i = 1 \/ i = 2 \/ i = 3 \/ i = 4 \/ i = 5 \/ i = 6 \/ i = 7)
    as Hcases by lia.
  repeat (destruct Hcases as [-> | Hcases]; [by eexists |]).
  subst. by eexists.
Qed.

(** X5: [human_readable_bytes] raises nothing but [OverflowError] and
    [ValueError], both from the conversions between [int] and [float]:
    the index into the unit list stays within the list and the loop over
    the trailing zeros stops inside the string, for every byte count and
    both bases. *)
Theorem formatter_error_classes (n : Z) (base_1024 trim_zeroes : bool) :
  exists r,
    human_readable_bytes n base_1024 trim_zeroes = Some r /\
    raised r ∈ [None; Some OverflowError; Some ValueError].
Proof.
  unfold human_readable_bytes.
  destruct (float_of_int n) as [x|e] eqn:Ex.
  2:{ eexists. split; [done |]. cbn [raised].
      rewrite (UnitsFacts.float_of_int_error _ _ Ex). by repeat constructor. }
  destruct (scale_loop_terminates 8 (if base_1024 then 1024 else 1000) x (-1))
    as (r & Hr & Hi); [lia | lia |].
  rewrite Hr. destruct r as [[y i]|e].
  2:{ eexists. split; [done |]. cbn [raised].
      destruct (scale_loop_error _ _ _ _ _ Hr) as [-> | ->]; by repeat constructor. }
  eexists. split; [done |].
  assert (exists number,
            (if trim_zeroes then trim (format_3f y) else Ok (format_3f y))
            = Ok number) as [number ->].
  { destruct trim_zeroes; [apply format_3f_trims | by eexists]. }
  rewrite bind_Ok.
  destruct (list_getitem_in_range i) as [u ->]; [specialize (Hi y i eq_refl); lia |].
  rewrite bind_Ok. by repeat constructor.
Qed.

End TrimFacts.

(** ** puffotter/os.py: further properties of the directory lister *)

Module ListdirFacts.
Import Str Os StrFacts OsFacts.

Lemma sorted_permutation (l1 l2 : list string) :
  l1 ≡ₚ l2 -> sorted l1 = sorted l2.
Proof.
  intros H. unfold sorted.
  apply (Sorted_unique String.le).
  - apply Sorted_merge_sort; apply _.
  - apply Sorted_merge_sort; apply _.
  - by rewrite !merge_sort_Permutation.
Qed.

Lemma filter_ext_all {A} (f g : A -> bool) (l : list A) :
  (forall x, f x = g x) -> List.filter f l = List.filter g l.
Proof.
  intros H. induction l as [|x l IH]; simpl; [done |].
  by rewrite H, IH.
Qed.

(** X6: the result of [listdir] does not depend on the order in which the
    operating system hands out the names: two listings of the same names,
    of files and directories of the same kind, give the same list. *)
Theorem listdir_order_independent
  (fs fs' : filesystem) (path : string) (no_files no_dirs no_dot : bool)
  (children children' : list string) :
  os_listdir fs path = Ok children ->
  os_listdir fs' path = Ok children' ->
  children ≡ₚ children' ->
  (forall p, isfile fs p = isfile fs' p) ->
  (forall p, isdir fs p = isdir fs' p) ->
  listdir fs path no_files no_dirs no_dot
  = listdir fs' path no_files no_dirs no_dot.
Proof.
  intros H H' Hperm Hfile Hdir.
  rewrite (listdir_content _ _ _ _ _ _ H), (listdir_content _ _ _ _ _ _ H').
  rewrite (sorted_permutation _ _ Hperm).
  do 2 f_equal. apply filter_ext_all. intros child.
  unfold kept. by rewrite Hfile, Hdir.
Qed.

Lemma listdir_order_independent_witness :
  listdir example_fs "/srv" false false true
  = listdir {| os_listdir p :=
                 if bool_decide (p = "/srv")
                 then Ok ["data"; "a.py"; ".cache"; "notes.txt"]
                 else Raise (PyExc FileNotFoundError p);
               isfile := isfile example_fs;
               isdir := isdir example_fs |}
      "/srv" false false true.
Proof.
  apply (listdir_order_independent example_fs _ "/srv" false false true
           ["notes.txt"; ".cache"; "data"; "a.py"]
           ["data"; "a.py"; ".cache"; "notes.txt"]);
    try reflexivity.
  apply (Permutation_trans
           (l' := ["data"; "notes.txt"; ".cache"; "a.py"])).
  - apply (Permutation_trans (l' := ["notes.txt"; "data"; ".cache"; "a.py"])).
    + apply perm_skip, perm_swap.
    + apply perm_swap.
  - apply perm_skip.
    apply (Permutation_trans (l' := [".cache"; "a.py"; "notes.txt"])).
    + apply (Permutation_trans (l' := [".cache"; "notes.txt"; "a.py"])).
      * apply perm_swap.
      * apply perm_skip, perm_swap.
    + apply perm_swap.
Defined.

(** X7: with the three switches off nothing is left out: the names of the
    result are the names of the operating system, each as often as the
    operating system gave it, in sorted order. *)
Theorem listdir_unfiltered (fs : filesystem) (path : string)
  (children : list string) :
  os_listdir fs path = Ok children ->
  exists content,
    listdir fs path false false false = Ok content /\
    map fst content = sorted children /\
    map fst content ≡ₚ children /\
    length content = length children.
Proof.
  intros H. eexists. split; [by apply listdir_content |].
  assert (List.filter (kept fs path false false false) (sorted children)
          = sorted children) as ->.
  { induction (sorted children) as [|x l IH]; simpl; [done | by rewrite IH]. }
  rewrite names_of_entries.
  split; [done |]. split.
  - apply merge_sort_Permutation.
  - rewrite length_map. unfold sorted.
    by rewrite merge_sort_Permutation.
Qed.

Lemma listdir_unfiltered_witness :
  listdir example_fs "/srv" false false false
  = Ok [(".cache", "/srv/.cache"); ("a.py", "/srv/a.py");
        ("data", "/srv/data"); ("notes.txt", "/srv/notes.txt")].
Proof.
  destruct (listdir_unfiltered example_fs "/srv" _ eq_refl)
    as (content & Hc & _).
  rewrite Hc. vm_compute in Hc. by injection Hc as <-.
Defined.

Lemma endswith_self (a b : string) : endswith (a +:+ b) b = true.
Proof.
  induction a as [|c a IH].
  - rewrite append_nil_l. destruct b as [|c b]; [done |].
    simpl. by rewrite bool_decide_true.
  - rewrite append_cons. simpl. by rewrite IH, orb_true_r.
Qed.

(** X8: the full path of every entry ends with the name of the entry. *)
Theorem listdir_paths_end_with_name
  (fs : filesystem) (path : string) (no_files no_dirs no_dot : bool)
  (content : list (string * string)) (name full : string) :
  listdir fs path no_files no_dirs no_dot = Ok content ->
  In (name, full) content ->
  endswith full name = true.
Proof.
  intros Hl Hin.
  destruct (os_listdir fs path) as [children|e] eqn:H.
  2:{ unfold listdir in Hl. by rewrite H in Hl. }
  rewrite (listdir_content _ _ _ _ _ _ H) in Hl. injection Hl as <-.
  apply in_entries in Hin as [_ ->]. unfold join.
  destruct (startswith name "/").
  - apply (endswith_self "" name).
  - destruct (_ || _).
    + apply endswith_self.
    + rewrite <- append_assoc. apply endswith_self.
Qed.

Lemma listdir_paths_end_with_name_witness :
  endswith "/srv/notes.txt" "notes.txt" = true.
Proof.
  apply (listdir_paths_end_with_name example_fs "/srv" false false true
           [("a.py", "/srv/a.py"); ("data", "/srv/data");
            ("notes.txt", "/srv/notes.txt")]);
    [reflexivity | simpl; tauto].
Defined.

End ListdirFacts.

(** ** puffotter/flask/wsgi.py: further properties of the task loop *)

Module LoopFacts.
Import Wsgi Tasks Vocabulary WsgiFacts.

Section Loop.
Context {W : Type}.
Variable t : task W.
Implicit Types (th : thread W) (n : nat).

(** A thread that has ended does nothing more. *)
Lemma run_task_ended n th (e : exn) :
  ended th = Some e -> run_task t n th = th.
Proof.
  intros H. induction n as [|n IH]; [done |].
  rewrite run_task_succ, IH. unfold round. by rewrite H.
Qed.


End Loop.



(** X10: an exception of the callback that is no instance of [Exception],
    as [SystemExit] or [KeyboardInterrupt], is not caught: it ends the
    thread in the first round, without a line in the log and without a
    sleep, and the callback is never called again. *)
Theorem run_task_not_caught {W : Type} (t : task W) (w : W) (n : nat)
  (error : exn) :
  fst (_function t w) = Raise error ->
  isinstance error Exception = false ->
  run_task t (Datatypes.S n) (start w) =
  {| world := snd (_function t w);
     invocations := 1;
     logged := [];
     slept := [];
     ended := Some error |}.
Proof.
  intros Hraise Hexc.
  change (run_task t (Datatypes.S n) (start w))
    with (run_task t n (round t (start w))).
  assert (round t (start w) =
          {| world := snd (_function t w); invocations := 1; logged := [];
             slept := []; ended := Some error |}) as ->.
  { unfold round. simpl. destruct (_function t w) as [r w']. simpl in Hraise.
    subst r. by rewrite Hexc. }
  by apply (run_task_ended t n _ error).
Qed.

Lemma run_task_not_caught_witness :
  run_task exiting_task 3 (start 0%nat) =
  {| world := 1%nat; invocations := 1; logged := []; slept := [];
     ended := Some (PyExc SystemExit "0") |}.
Proof.
  apply (run_task_not_caught exiting_task 0%nat 2 (PyExc SystemExit "0"));
    reflexivity.
Defined.

(** X11: with a delay that [time.sleep] refuses, a negative one or one
    above [max_sleep], the loop does not survive its first round: the
    callback is called once, what it raises is caught and logged, and then
    [time.sleep] raises [ValueError] or [OverflowError] outside the [try],
    which ends the thread. *)
Theorem run_task_refused_delay {W : Type} (t : task W) (w : W) (n : nat) :
  _delay t < 0 \/ max_sleep < _delay t ->
  (forall error, fst (_function t w) = Raise error ->
                 isinstance error Exception = true) ->
  let th := run_task t (Datatypes.S n) (start w) in
  (exists error,
     sleep (_delay t) = Raise error /\
     ended th = Some error /\
     (type_of error = ValueError \/ type_of error = OverflowError)) /\
  invocations th = 1%nat /\
  world th = snd (_function t w) /\
  slept th = [] /\
  logged th = match fst (_function t w) with
              | Ok _ => []
              | Raise error => [log_line t error]
              end.
Proof.
  intros Hdelay Hexc th. subst th.
  assert (exists error,
            sleep (_delay t) = Raise error /\
            (type_of error = ValueError \/ type_of error = OverflowError))
    as (error & Hsleep & Hclass).
  { destruct (sleep (_delay t)) as [[]|error] eqn:Hsleep.
    - apply sleep_ok in Hsleep. lia.
    - exists error. split; [done |]. unfold sleep in Hsleep.
      destruct (_ || _); [injection Hsleep as <-; by right |].
      destruct (_ <? 0); [injection Hsleep as <-; by left | done]. }
  change (run_task t (Datatypes.S n) (start w))
    with (run_task t n (round t (start w))).
  assert (round t (start w) =
          {| world := snd (_function t w); invocations := 1;
             logged := match fst (_function t w) with
                       | Ok _ => []
                       | Raise error => [log_line t error]
                       end;
             slept := [];
             ended := Some error |}) as ->.
  { unfold round. cbn [ended start world invocations logged slept].
    destruct (_function t w) as [[v|error'] w']; cbn [fst snd] in *.
    - by rewrite Hsleep.
    - by rewrite (Hexc error' eq_refl), Hsleep. }
  rewrite (run_task_ended t n _ error) by reflexivity.
  cbn [ended invocations world slept logged].
  split; [by exists error | done].
Qed.

Lemma run_task_refused_delay_witness :
  (let th := run_task hasty_task 5 (start 0%nat) in
   ended th = Some (PyExc ValueError "sleep length must be non-negative") /\
   invocations th = 1%nat /\ slept th = []) /\
  (let th := run_task patient_task 5 (start 0%nat) in
   invocations th = 1%nat /\ slept th = []).
Proof.
  split.
  - destruct (run_task_refused_delay hasty_task 0%nat 4)
      as ((error & Hsleep & Hended & _) & H2 & _ & H4 & _);
      [left; reflexivity | discriminate |].
    vm_compute in Hsleep. injection Hsleep as <-.
    repeat split; assumption.
  - destruct (run_task_refused_delay patient_task 0%nat 4)
      as (_ & H2 & _ & H4 & _);
      [right; reflexivity | discriminate |].
    split; assumption.
Defined.

End LoopFacts.

(** ** puffotter/flask/routes/decorators.py: further properties of [api]
    and [api_login_required] *)

Module DecoratorFacts.
Import Str Api ApiLogin ApiFacts.




Lemma except_block_envelope (e : exn) (resp : http_response) :
  except_block e {[ "status" := JStr "ok" ]} = Ok resp ->
  exists reason, body resp = error_envelope reason.
Proof.
  unfold except_block. destruct (isinstance e ApiException).
  - destruct e as [c msg | reason code]; [done |].
    intros [= <-]. exists reason. apply error_body.
  - intros [= <-]. eexists. apply error_body.
Qed.

Section Api.
Context {S : Type}.
Implicit Types (func : handler S) (req : request) (s : S).

(** The three ways through the wrapper. *)
Lemma api_cases func req s :
  (exists e, body_is_json req = Raise e /\ type_of e = AttributeError /\
     api func req s = {| result := Raise e; state := s; calls := 0 |}) \/
  (api func req s
   = {| result := Ok {| status_code := 400;
                        body := error_envelope "Not in JSON format" |};
        state := s; calls := 0 |}) \/
  (api func req s =
   {| result :=
        match fst (func s) with
        | Ok data => Ok {| status_code := 200; body := ok_envelope data |}
        | Raise e =>
            if isinstance_any e whitelist
            then except_block e {[ "status" := JStr "ok" ]}
            else Raise e
        end;
      state := snd (func s);
      calls := 1 |}).
Proof.
  destruct (body_is_json req) as [is_json|e] eqn:Hjson.
  - destruct (requires_json req && negb is_json) eqn:Hreq.
    + right. left. unfold api, try_block. rewrite Hjson, Hreq.
      change (isinstance_any (ApiExc "Not in JSON format" 400) whitelist)
        with true.
      cbv iota. by f_equal.
    + right. right. rewrite (api_calls_handler _ _ _ _ Hjson Hreq).
      by destruct (func s) as [r s'].
  - left. exists e. split; [done |].
    unfold body_is_json in Hjson.
    destruct (content_type req) as [ct|] eqn:Hct; [done |].
    injection Hjson as <-. split; [done |].
    unfold api, try_block, body_is_json. by rewrite Hct.
Qed.
End Api.

(** X12: a request without a Content-Type header makes the wrapper raise
    [AttributeError], whatever its method: the handler is not called, the
    state stays as it is and no response is made. *)
Theorem api_no_content_type {S : Type} (func : handler S) (req : request)
  (s : S) :
  content_type req = None ->
  api func req s =
  {| result := Raise (PyExc AttributeError
                        "'NoneType' object has no attribute 'startswith'");
     state := s;
     calls := 0 |}.
Proof.
  intros Hct. unfold api, try_block, body_is_json. by rewrite Hct.
Qed.

Lemma api_no_content_type_witness :
  api counting_handler bare_delete 3%nat =
  {| result := Raise (PyExc AttributeError
                        "'NoneType' object has no attribute 'startswith'");
     state := 3%nat;
     calls := 0 |}.
Proof. apply (api_no_content_type counting_handler bare_delete 3%nat eq_refl). Defined.

(** How often the handler is called, read off the request. *)
Lemma api_calls_request {S : Type} (func : handler S) (req : request) (s : S) :
  calls (api func req s) =
  match body_is_json req with
  | Raise _ => O
  | Ok is_json => if requires_json req && negb is_json then O else 1%nat
  end.
Proof.
  unfold api, try_block.
  destruct (body_is_json req) as [is_json|e]; [| done].
  destruct (requires_json req && negb is_json); [done |].
  by destruct (func s) as [[data|e] s0].
Qed.

(** X13: the wrapper calls the handler at most once and touches the state
    only through it; whether it calls the handler is a matter of the
    request alone, not of the handler or of the state. *)
Theorem api_calls_at_most_once {S S' : Type} (func : handler S)
  (func' : handler S') (req : request) (s : S) (s' : S') :
  let o := api func req s in
  (calls o = 0%nat /\ state o = s \/
   calls o = 1%nat /\ state o = snd (func s)) /\
  calls (api func' req s') = calls o.
Proof.
  split; [| by rewrite !api_calls_request].
  destruct (api_cases func req s) as [(e & _ & _ & ->) | [-> | ->]];
    simpl; tauto.
Qed.

(** X14: a response of the wrapper follows one of two patterns: status
    200 with the envelope [{"status": "ok", "data": value}] around the
    value the handler returned, or the envelope [{"status": "error",
    "reason": text}]; the first has no reason and the second no data. *)
Theorem api_response_pattern {S : Type} (func : handler S) (req : request)
  (s : S) (resp : http_response) :
  result (api func req s) = Ok resp ->
  ((exists data,
      fst (func s) = Ok data /\ calls (api func req s) = 1%nat /\
      resp = {| status_code := 200; body := ok_envelope data |} /\
      body resp !! "status" = Some (JStr "ok") /\
      body resp !! "data" = Some data /\
      body resp !! "reason" = None) \/
   (exists reason,
      body resp = error_envelope reason /\
      body resp !! "status" = Some (JStr "error") /\
      body resp !! "reason" = Some (JStr reason) /\
      body resp !! "data" = None)).
Proof.
  assert (forall reason, body resp = error_envelope reason ->
            body resp = error_envelope reason /\
            body resp !! "status" = Some (JStr "error") /\
            body resp !! "reason" = Some (JStr reason) /\
            body resp !! "data" = None) as Herror.
  { intros reason ->. by repeat split. }
  destruct (api_cases func req s) as [(e & _ & _ & ->) | [-> | ->]];
    cbn [result calls].
  - done.
  - intros [= <-]. right. exists "Not in JSON format". by apply Herror.
  - destruct (fst (func s)) as [data|e] eqn:Hcall.
    + intros [= <-]. left. exists data. repeat split.
    + destruct (isinstance_any e whitelist); [| done].
      intros [reason Hbody]%except_block_envelope. right.
      exists reason. by apply Herror.
Qed.

Lemma api_response_pattern_witness :
  exists reason,
    error_envelope "Not in JSON format" = error_envelope reason /\
    error_envelope "Not in JSON format" !! "data" = None.
Proof.
  destruct (api_response_pattern counting_handler post_text 0%nat
              {| status_code := 400;
                 body := error_envelope "Not in JSON format" |} eq_refl)
    as [(data & Hcall & Hcalls & _) | (reason & Hbody & _ & _ & Hdata)].
  - vm_compute in Hcalls. discriminate Hcalls.
  - exists reason. split; [exact Hbody | exact Hdata].
Defined.






End DecoratorFacts.

(** ** puffotter/flask/initialize.py: further properties of the request
    loader *)

Module LoaderFacts.
Import Str Auth Vocabulary StrFacts AuthFacts.

(** No class is below [UnicodeDecodeError] and below a class of the
    [except] clause of the loader. *)
Lemma unicode_class_not_caught (c : pyclass) :
  issubclass c UnicodeDecodeError = true ->
  existsb (issubclass c) [TypeError; binascii_Error] = false.
Proof.
  induction c as [| | | | | | | | | | | | | | | | | | | | | | | name base IH];
    try (vm_compute; congruence).
  cbn [existsb].
  rewrite !issubclass_user by discriminate. exact IH.
Qed.

Lemma foldr_delete_subseteq (m : gmap string ApiKey) (l : list string) :
  foldr delete m l ⊆ m.
Proof.
  induction l as [|id l IH]; [done |].
  simpl. etrans; [apply delete_subseteq | exact IH].
Qed.

Lemma startswith_all_chars (P : ascii -> bool) (s p : string) :
  startswith s p = true -> all_chars P s = true -> all_chars P p = true.
Proof.
  revert s. induction p as [|a p IH]; intros s; [done |].
  destruct s as [|b s]; [done |]. simpl.
  intros [Hab Hp]%andb_prop [Hb Hs]%andb_prop.
  apply bool_decide_eq_true in Hab as ->.
  by rewrite Hb, (IH s).
Qed.

(** The scheme word in front is removed. *)
Lemma replace_basic_prefix (key : string) :
  replace_count ("Basic " +:+ key) "Basic " "" 1 = key.
Proof.
  rewrite !append_cons, append_nil_l. unfold replace_count.
  rewrite replace_go_step.
  change (startswith _ "Basic ") with true. cbv iota. cbn [Z.eqb].
  rewrite append_nil_l. cbn. by destruct key.
Qed.

(** A value without a blank has no scheme word to remove. *)
Lemma replace_basic_absent (key : string) :
  no_blank key = true -> replace_count key "Basic " "" 1 = key.
Proof.
  unfold replace_count, no_blank.
  induction key as [|c key IH]; [done |].
  intros H. rewrite replace_go_step. cbn [Z.eqb].
  destruct (startswith (String c key) "Basic ") eqn:Hstart.
  - by apply (startswith_all_chars _ _ _ Hstart) in H.
  - simpl in H. apply andb_prop in H as [_ H]. by rewrite IH.
Qed.

Section Loader.
Variable env : environment.
Implicit Types (request : request) (db : database).

(** The loader leaves the database as it is, but for an expired key. *)
Lemma load_cases request db :
  load_user_from_request env request db
    = (fst (load_user_from_request env request db), db) \/
  exists authorization api_key k,
    headers request !! "Authorization" = Some authorization /\
    decode_api_key env (replace_count authorization "Basic " "" 1)
      = Ok api_key /\
    api_keys db !! split_first ":" api_key = Some k /\
    verify_key env k api_key = true /\
    has_expired env k = true.
Proof.
  destruct (headers request !! "Authorization") as [authorization|] eqn:Hh.
  2:{ left. by rewrite (load_no_header env request db Hh). }
  destruct (decode_api_key env (replace_count authorization "Basic " "" 1))
    as [api_key|e] eqn:Hd.
  2:{ left. unfold load_user_from_request. rewrite Hh, Hd.
      by destruct (isinstance_any _ _). }
  destruct (api_keys db !! split_first ":" api_key) as [k|] eqn:Hk.
  2:{ left. by rewrite (load_unknown_key env request db _ _ Hh Hd Hk). }
  destruct (verify_key env k api_key) eqn:Hv.
  2:{ left. by rewrite (load_unverified env request db _ _ _ Hh Hd Hk Hv). }
  destruct (has_expired env k) eqn:Hx.
  - right. by exists authorization, api_key, k.
  - left. unfold load_user_from_request. by rewrite Hh, Hd, Hk, Hv, Hx.
Qed.

Lemma load_raises request db (e : exn) :
  fst (load_user_from_request env request db) = Raise e <->
  exists authorization,
    headers request !! "Authorization" = Some authorization /\
    decode_api_key env (replace_count authorization "Basic " "" 1) = Raise e /\
    isinstance_any e [TypeError; binascii_Error] = false.
Proof.
  unfold load_user_from_request. split.
  - destruct (headers request !! "Authorization") as [authorization|] eqn:Hh;
      [| done].
    destruct (decode_api_key env _) as [api_key|e'] eqn:Hd.
    + destruct (api_keys db !! _) as [k|]; [| done].
      destruct (verify_key env k api_key); [| done].
      by destruct (has_expired env k).
    + destruct (isinstance_any e' _) eqn:He; [done |].
      intros [= <-]. by exists authorization.
  - intros (authorization & -> & -> & ->). done.
Qed.
End Loader.

(** X17: the loader answers with a user exactly when the request carries
    an Authorization header whose value, less one "Basic ", decodes to a
    key that is stored under its id, verifies and has not expired, and the
    user is the one the stored key names; the database is then left as it
    was. *)
Theorem load_user_authenticated (env : environment) (request : request)
  (db db' : database) (u : User) :
  load_user_from_request env request db = (Ok (Some u), db') <->
  db' = db /\
  exists authorization api_key k,
    headers request !! "Authorization" = Some authorization /\
    decode_api_key env (replace_count authorization "Basic " "" 1)
      = Ok api_key /\
    api_keys db !! split_first ":" api_key = Some k /\
    verify_key env k api_key = true /\
    has_expired env k = false /\
    users db !! key_user_id k = Some u.
Proof.
  split.
  - unfold load_user_from_request.
    destruct (headers request !! "Authorization") as [authorization|] eqn:Hh;
      [| done].
    destruct (decode_api_key env _) as [api_key|e] eqn:Hd.
    2:{ by destruct (isinstance_any e _). }
    destruct (api_keys db !! _) as [k|] eqn:Hk; [| done].
    destruct (verify_key env k api_key) eqn:Hv; [| done].
    destruct (has_expired env k) eqn:Hx; [done |].
    cbn [negb]. intros [= Hu <-]. split; [done |].
    by exists authorization, api_key, k.
  - intros (-> & authorization & api_key & k & Hh & Hd & Hk & Hv & Hx & Hu).
    unfold load_user_from_request. rewrite Hh, Hd, Hk, Hv, Hx.
    cbn [negb]. by rewrite Hu.
Qed.

Lemma load_user_authenticated_witness :
  load_user_from_request example_env (request_with "Basic MTpzZWNyZXQ=")
    example_db
  = (Ok (Some {| username := "otter"; email := "otter@example.org" |}),
     example_db).
Proof.
  apply (proj2 (load_user_authenticated example_env
                  (request_with "Basic MTpzZWNyZXQ=") example_db example_db
                  {| username := "otter"; email := "otter@example.org" |})).
  split; [reflexivity |].
  exists "Basic MTpzZWNyZXQ=", "1:secret",
    {| key_user_id := 7; key_hash := "secret"; creation_time := 500 |}.
  repeat split; reflexivity.
Defined.

(** X18: whatever the request, the loader never changes the table of
    users and never adds or changes an API key: the keys it leaves are
    keys that were there; and the database changes at all only when the
    loader answers [None]. *)
Theorem load_user_frame (env : environment) (request : request) (db : database) :
  let db' := snd (load_user_from_request env request db) in
  users db' = users db /\
  api_keys db' ⊆ api_keys db /\
  (db' = db \/ fst (load_user_from_request env request db) = Ok None).
Proof.
  destruct (load_cases env request db)
    as [-> | (authorization & api_key & k & Hh & Hd & Hk & Hv & Hx)].
  - cbn [snd]. repeat split; [done | by left].
  - rewrite (load_expired env request db _ _ _ Hh Hd Hk Hv Hx). cbn [snd fst].
    repeat split; [| by right].
    simpl. etrans; [apply delete_subseteq | apply foldr_delete_subseteq].
Qed.

(** X19: the loader raises exactly when the decoding of the header value
    raises something that is neither a [TypeError] nor a
    [binascii.Error]; it raises that exception, and the database is left
    as it was. *)
Theorem load_user_raises (env : environment) (request : request)
  (db : database) (e : exn) :
  fst (load_user_from_request env request db) = Raise e <->
  snd (load_user_from_request env request db) = db /\
  exists authorization,
    headers request !! "Authorization" = Some authorization /\
    decode_api_key env (replace_count authorization "Basic " "" 1) = Raise e /\
    isinstance_any e [TypeError; binascii_Error] = false.
Proof.
  rewrite load_raises. split; [| by intros [_ H]].
  intros H. split; [| exact H].
  destruct H as (authorization & Hh & Hd & He).
  unfold load_user_from_request. by rewrite Hh, Hd, He.
Qed.

Lemma load_user_raises_witness :
  snd (load_user_from_request example_env (request_with "Basic /w==") example_db)
    = example_db /\
  exists authorization,
    headers (request_with "Basic /w==") !! "Authorization"
      = Some authorization /\
    decode_api_key example_env (replace_count authorization "Basic " "" 1)
      = Raise (PyExc UnicodeDecodeError
                 "'utf-8' codec can't decode byte 0xff in position 0: invalid start byte") /\
    isinstance_any
      (PyExc UnicodeDecodeError
         "'utf-8' codec can't decode byte 0xff in position 0: invalid start byte")
      [TypeError; binascii_Error] = false.
Proof.
  apply (proj1 (load_user_raises example_env (request_with "Basic /w==")
                  example_db
                  (PyExc UnicodeDecodeError
                     "'utf-8' codec can't decode byte 0xff in position 0: invalid start byte"))).
  reflexivity.
Defined.

(** X20: bytes that are valid base64 and no valid UTF-8 are not handled:
    the [UnicodeDecodeError] of [decode] is a [ValueError] and no
    [binascii.Error], so it leaves the loader. *)
Theorem load_user_unicode_error (env : environment) (request : request)
  (db : database) (authorization raw : string) (e : exn) :
  headers request !! "Authorization" = Some authorization ->
  b64decode env (encode_utf8 env (replace_count authorization "Basic " "" 1))
    = Ok raw ->
  decode_utf8 env raw = Raise e ->
  isinstance e UnicodeDecodeError = true ->
  load_user_from_request env request db = (Raise e, db) /\
  isinstance e ValueError = true.
Proof.
  intros Hh Hb Hd He.
  assert (isinstance_any e [TypeError; binascii_Error] = false) as Hcaught.
  { destruct e as [c msg | reason code]; [| by vm_compute in He].
    by apply unicode_class_not_caught. }
  split.
  - unfold load_user_from_request, decode_api_key.
    by rewrite Hh, Hb, bind_Ok, Hd, Hcaught.
  - destruct e as [c msg | reason code]; [| by vm_compute in He].
    unfold isinstance in *. cbn [type_of] in *. clear Hd Hcaught.
    induction c as [| | | | | | | | | | | | | | | | | | | | | | | name base IH];
      try (vm_compute in He |- *; congruence).
    rewrite issubclass_user in He |- * by discriminate.
    by apply IH.
Qed.

Lemma load_user_unicode_error_witness :
  load_user_from_request example_env (request_with "Basic /w==") example_db
  = (Raise (PyExc UnicodeDecodeError
              "'utf-8' codec can't decode byte 0xff in position 0: invalid start byte"),
     example_db).
Proof.
  apply (load_user_unicode_error example_env (request_with "Basic /w==")
           example_db "Basic /w==" (String (chr 255) ""));
    reflexivity.
Defined.

(** X21: the loader is idempotent: the same request on the database the
    loader left gives the same answer and leaves that database as it is;
    an expired key is deleted by the first call and unknown to the
    second. *)
Theorem load_user_idempotent (env : environment) (request : request)
  (db : database) :
  let first := load_user_from_request env request db in
  load_user_from_request env request (snd first) = (fst first, snd first).
Proof.
  destruct (load_cases env request db)
    as [H | (authorization & api_key & k & Hh & Hd & Hk & Hv & Hx)].
  - cbn zeta. rewrite H at 1. cbn [snd]. rewrite H at 1.
    rewrite H at 3. reflexivity.
  - cbn zeta. rewrite (load_expired env request db _ _ _ Hh Hd Hk Hv Hx).
    cbn [fst snd]. apply (load_unknown_key env request _ _ _ Hh Hd).
    by destruct (commit_delete (split_first ":" api_key) db) as [Hgone _].
Qed.

(** X22: the word "Basic " in front of the key is optional: a header value
    without a blank is read as the key itself, and with "Basic " in front
    it is read as the same key. *)
Theorem load_user_scheme_optional (env : environment) (key : string)
  (db : database) :
  no_blank key = true ->
  load_user_from_request env (request_with ("Basic " +:+ key)) db
  = load_user_from_request env (request_with key) db.
Proof.
  intros Hkey. unfold load_user_from_request, request_with. cbn [headers].
  rewrite !lookup_singleton_eq.
  by rewrite replace_basic_prefix, (replace_basic_absent key Hkey).
Qed.

Lemma load_user_scheme_optional_witness :
  load_user_from_request example_env (request_with ("Basic " +:+ "MTpzZWNyZXQ="))
    example_db
  = load_user_from_request example_env (request_with "MTpzZWNyZXQ=") example_db.
Proof.
  apply (load_user_scheme_optional example_env "MTpzZWNyZXQ=" example_db).
  reflexivity.
Defined.

End LoaderFacts.

(** ** puffotter/flask/initialize.py: [load_user] and the blueprints *)

Module InitFacts.
Import Str Num Auth Init.

Section Blueprints.
Context {Blueprint : Type}.
Implicit Types (st : app_state Blueprint)
  (gens : list (generator Blueprint * string)).

(** What one round does to the three lists. *)
Lemma create_blueprint_grows (entry : generator Blueprint * string) st :
  let st' := snd (create_blueprint entry st) in
  CREATED_BLUEPRINTS st' =
    CREATED_BLUEPRINTS st
      ++ (if bool_decide (snd entry ∈ CREATED_BLUEPRINTS st) then []
          else [snd entry]) /\
  registered st `prefix_of` registered st' /\
  (length (registered st') <= length (registered st) +
     (if bool_decide (snd entry ∈ CREATED_BLUEPRINTS st) then 0 else 1))%nat.
Proof.
  destruct entry as [g name]. unfold create_blueprint. cbn [snd].
  case_bool_decide.
  - cbn. rewrite app_nil_r. split; [done |]. split; [reflexivity | lia].
  - destruct (g name) as [blueprint|e]; cbn.
    + split; [done |]. split; [by apply prefix_app_r |].
      rewrite length_app. simpl. lia.
    + split; [done |]. split; [reflexivity | lia].
Qed.

Lemma create_blueprint_NoDup (entry : generator Blueprint * string) st :
  NoDup (CREATED_BLUEPRINTS st) ->
  NoDup (CREATED_BLUEPRINTS (snd (create_blueprint entry st))).
Proof.
  intros Hst.
  destruct (create_blueprint_grows entry st) as (-> & _).
  case_bool_decide; [by rewrite app_nil_r |].
  apply NoDup_app. split; [done |]. split; [| apply NoDup_singleton].
  intros x Hx ->%list_elem_of_singleton. done.
Qed.

Lemma create_blueprints_cons (entry : generator Blueprint * string) gens st :
  snd (create_blueprints (entry :: gens) st) =
  match fst (create_blueprint entry st) with
  | Ok _ => snd (create_blueprints gens (snd (create_blueprint entry st)))
  | Raise _ => snd (create_blueprint entry st)
  end.
Proof.
  cbn [create_blueprints].
  by destruct (create_blueprint entry st) as [[[]|e] st1].
Qed.

Lemma create_blueprints_grows gens st :
  let st' := snd (create_blueprints gens st) in
  (NoDup (CREATED_BLUEPRINTS st) -> NoDup (CREATED_BLUEPRINTS st')) /\
  CREATED_BLUEPRINTS st `prefix_of` CREATED_BLUEPRINTS st' /\
  registered st `prefix_of` registered st' /\
  (length (registered st') + length (CREATED_BLUEPRINTS st)
   <= length (registered st) + length (CREATED_BLUEPRINTS st'))%nat.
Proof.
  revert st. induction gens as [|entry gens IH]; intros st.
  - cbn. split; [done |]. split; [reflexivity |]. split; [reflexivity | lia].
  - cbn zeta. rewrite create_blueprints_cons.
    pose proof (create_blueprint_NoDup entry st) as Hnodup.
    destruct (create_blueprint_grows entry st) as (Hc & Hr & Hlen).
    set (st1 := snd (create_blueprint entry st)) in *.
    assert (CREATED_BLUEPRINTS st `prefix_of` CREATED_BLUEPRINTS st1) as Hpre.
    { rewrite Hc. by apply prefix_app_r. }
    assert (length (registered st1) + length (CREATED_BLUEPRINTS st)
            <= length (registered st) + length (CREATED_BLUEPRINTS st1))%nat
      as Hcount.
    { rewrite Hc, length_app. case_bool_decide; simpl in *; lia. }
    destruct (fst (create_blueprint entry st)) as [[]|e].
    2:{ split; [done |]. split; [done |]. by split. }
    destruct (IH st1) as (IH1 & IH2 & IH3 & IH4).
    split; [| split; [| split]].
    + intros Hst. by apply IH1, Hnodup.
    + by etrans.
    + by etrans.
    + lia.
Qed.

(** A list of blueprints that are all created already is passed over:
    no generator is called and nothing is registered. *)
Lemma create_blueprints_skips gens st :
  Forall (fun entry => snd entry ∈ CREATED_BLUEPRINTS st) gens ->
  create_blueprints gens st =
  (Ok tt,
   {| CREATED_BLUEPRINTS := CREATED_BLUEPRINTS st;
      registered := registered st;
      app_log := app_log st ++ map already_created gens |}).
Proof.
  revert st. induction gens as [|[g name] gens IH]; intros st Hall.
  - cbn. rewrite app_nil_r. by destruct st.
  - apply Forall_cons in Hall as [Hname Hall]. cbn [snd] in Hname.
    cbn [create_blueprints create_blueprint].
    rewrite bool_decide_true by done.
    rewrite IH by done. cbn. by rewrite <- app_assoc.
Qed.

Lemma elem_of_prefix (l1 l2 : list string) (x : string) :
  l1 `prefix_of` l2 -> x ∈ l1 -> x ∈ l2.
Proof. intros [k ->] Hx. apply elem_of_app. by left. Qed.

(** After a round the name of its blueprint is created, whether the
    generator returned or raised. *)
Lemma create_blueprint_created (entry : generator Blueprint * string) st :
  snd entry ∈ CREATED_BLUEPRINTS (snd (create_blueprint entry st)).
Proof.
  destruct (create_blueprint_grows entry st) as (-> & _).
  case_bool_decide.
  - by rewrite app_nil_r.
  - apply elem_of_app. right. by apply list_elem_of_singleton.
Qed.

Lemma create_blueprints_ok gens st st' :
  create_blueprints gens st = (Ok tt, st') ->
  Forall (fun entry => snd entry ∈ CREATED_BLUEPRINTS st') gens.
Proof.
  revert st. induction gens as [|entry gens IH]; intros st H; [constructor |].
  cbn [create_blueprints] in H.
  pose proof (create_blueprint_created entry st) as Hin.
  destruct (create_blueprint entry st) as [[[]|e] st1]; [| done].
  cbn [snd] in Hin. constructor; [| by eapply IH].
  destruct (create_blueprints_grows gens st1) as (_ & Hpre & _).
  rewrite H in Hpre. cbn [snd] in Hpre. by eapply elem_of_prefix.
Qed.

Lemma create_blueprints_raise gens st st' (e : exn) :
  create_blueprints gens st = (Raise e, st') ->
  exists done entry rest,
    gens = done ++ entry :: rest /\
    fst entry (snd entry) = Raise e /\
    Forall (fun x => snd x ∈ CREATED_BLUEPRINTS st') (done ++ [entry]).
Proof.
  revert st. induction gens as [|entry gens IH]; intros st H; [done |].
  cbn [create_blueprints] in H.
  pose proof (create_blueprint_created entry st) as Hin.
  destruct (create_blueprint entry st) as [[[]|e'] st1] eqn:Hround.
  - destruct (IH st1 H) as (done & entry' & rest & -> & Hraise & Hall).
    exists (entry :: done), entry', rest. repeat split; [done |].
    rewrite <- app_comm_cons. constructor; [| done].
    destruct (create_blueprints_grows (done ++ entry' :: rest) st1)
      as (_ & Hpre & _).
    rewrite H in Hpre. cbn [snd] in *. by eapply elem_of_prefix.
  - injection H as -> ->. exists [], entry, gens. cbn [snd] in Hin.
    repeat split; [| by constructor].
    destruct entry as [g name]. unfold create_blueprint in Hround.
    case_bool_decide; [done |].
    cbn [fst snd]. cbn zeta in Hround.
    destruct (g name) as [blueprint|e0]; [done |].
    by injection Hround as ->.
Qed.
End Blueprints.

(** X25: the loop over the blueprint generators keeps the list
    [CREATED_BLUEPRINTS] free of doubles, whatever the generators do and
    however often a name occurs among them; it only ever adds to the end
    of the list and of the registered blueprints, and it registers no more
    blueprints than it adds names. *)
Theorem create_blueprints_invariant {Blueprint : Type}
  (gens : list (generator Blueprint * string)) (st : app_state Blueprint) :
  NoDup (CREATED_BLUEPRINTS st) ->
  let st' := snd (create_blueprints gens st) in
  NoDup (CREATED_BLUEPRINTS st') /\
  CREATED_BLUEPRINTS st `prefix_of` CREATED_BLUEPRINTS st' /\
  registered st `prefix_of` registered st' /\
  (length (registered st') + length (CREATED_BLUEPRINTS st)
   <= length (registered st) + length (CREATED_BLUEPRINTS st'))%nat.
Proof.
  intros Hst st'.
  destruct (create_blueprints_grows gens st) as (H1 & H2 & H3 & H4).
  split; [by apply H1 |]. split; [done |]. by split.
Qed.

Lemma create_blueprints_invariant_witness :
  let st' := snd (create_blueprints
                    [(named, "static"); (named, "api"); (named, "static")]
                    fresh_app) in
  NoDup (CREATED_BLUEPRINTS st') /\
  CREATED_BLUEPRINTS st' = ["static"; "api"] /\
  registered st' = ["static"; "api"].
Proof.
  destruct (create_blueprints_invariant
              [(named, "static"); (named, "api"); (named, "static")]
              fresh_app (NoDup_nil_2 : NoDup (CREATED_BLUEPRINTS fresh_app)))
    as (H1 & _).
  split; [exact H1 | split; reflexivity].
Defined.

(** X26: what the list is for: after a run of the loop that went through,
    a second run over the same generators calls none of them and
    registers nothing; it logs one line "already created" for each and
    leaves the lists as they are. *)
Theorem create_blueprints_idempotent {Blueprint : Type}
  (gens : list (generator Blueprint * string)) (st st' : app_state Blueprint) :
  create_blueprints gens st = (Ok tt, st') ->
  create_blueprints gens st' =
  (Ok tt,
   {| CREATED_BLUEPRINTS := CREATED_BLUEPRINTS st';
      registered := registered st';
      app_log := app_log st' ++ map already_created gens |}).
Proof.
  intros H. by apply create_blueprints_skips, (create_blueprints_ok gens st).
Qed.

Lemma create_blueprints_idempotent_witness :
  let st' := snd (create_blueprints [(named, "static"); (named, "api")]
                    fresh_app) in
  registered (snd (create_blueprints [(named, "static"); (named, "api")] st'))
  = ["static"; "api"].
Proof.
  cbn zeta.
  rewrite (create_blueprints_idempotent
             [(named, "static"); (named, "api")] fresh_app
             (snd (create_blueprints [(named, "static"); (named, "api")]
                     fresh_app)) eq_refl).
  reflexivity.
Defined.

(** X27: a generator that raises ends the loop, and its blueprint is never
    tried again: the name went into [CREATED_BLUEPRINTS] before the
    generator was called, so a later run passes over it, and over the
    blueprints before it, without calling a generator or registering
    anything. *)
Theorem create_blueprints_failure {Blueprint : Type}
  (gens : list (generator Blueprint * string)) (st st' : app_state Blueprint)
  (e : exn) :
  create_blueprints gens st = (Raise e, st') ->
  exists done entry rest,
    gens = done ++ entry :: rest /\
    fst entry (snd entry) = Raise e /\
    snd entry ∈ CREATED_BLUEPRINTS st' /\
    create_blueprints (done ++ [entry]) st' =
    (Ok tt,
     {| CREATED_BLUEPRINTS := CREATED_BLUEPRINTS st';
        registered := registered st';
        app_log := app_log st' ++ map already_created (done ++ [entry]) |}).
Proof.
  intros (done & entry & rest & -> & Hraise & Hall)%create_blueprints_raise.
  exists done, entry, rest. repeat split; [done | |].
  - apply Forall_app in Hall as [_ Hentry].
    by apply Forall_inv in Hentry.
  - by apply create_blueprints_skips.
Qed.

Lemma create_blueprints_failure_witness :
  let st' := snd (create_blueprints [(named, "static"); (broken, "admin")]
                    fresh_app) in
  "admin" ∈ CREATED_BLUEPRINTS st' /\ registered st' = ["static"].
Proof.
  destruct (create_blueprints_failure
              [(named, "static"); (broken, "admin")] fresh_app
              (snd (create_blueprints [(named, "static"); (broken, "admin")]
                      fresh_app))
              (PyExc RuntimeError "no templates") eq_refl)
    as (done & entry & rest & Hgens & _ & _ & _).
  split; [| reflexivity].
  vm_compute. apply list_elem_of_In. simpl. tauto.
Defined.

(** X28: [load_user] on a user id of decimal digits, at most as many as
    [int] converts, looks up the user with that number; whatever the id,
    it raises nothing but the [ValueError] of [int]. *)
Theorem load_user_by_id (db : database) (user_id : string) :
  (all_decimal user_id = true -> user_id <> "" ->
   Z.of_nat (String.length user_id) <= int_max_str_digits ->
   load_user db user_id = Ok (users db !! decimal_value user_id)) /\
  raised (load_user db user_id) ∈ [None; Some ValueError].
Proof.
  unfold load_user. split.
  - intros Hs Hne Hlen.
    by rewrite (UnitsFacts.int_of_str_decimal user_id Hs Hne Hlen).
  - destruct (int_of_str user_id) as [n|e] eqn:E.
    + rewrite bind_Ok. by repeat constructor.
    + rewrite bind_Raise. cbn [raised].
      rewrite (UnitsFacts.int_of_str_error _ _ E). by repeat constructor.
Qed.

Lemma load_user_by_id_witness :
  load_user example_db "7"
  = Ok (Some {| username := "otter"; email := "otter@example.org" |}).
Proof.
  rewrite (proj1 (load_user_by_id example_db "7"));
    [reflexivity | reflexivity | discriminate | by vm_compute].
Defined.

End InitFacts.
